(** * binance-cryptoexchange-api: request signing and the raw agent

    A shallow embedding of [src/index.ts] (both released versions of the
    file: the first one, and the later one that adds [recvWindow] and
    [validateStatus]) and the properties of its signing, configuration
    layering, credential handling and error normalisation.

    Layout: the JavaScript run-time notions the code relies on (objects
    with their own properties in enumeration order, spread, the text of a
    Number, truthiness, property reads), the two libraries it calls ([qs.stringify] on flat bodies,
    [crypto.createHmac('sha256', ..)]), the ambient world ([Date.now()] and
    the [axios] transport), then the two versions of the source, then the
    theorems. *)

From Stdlib Require Import String Ascii List ZArith NArith Bool Lia DecimalString.
Import ListNotations.
Local Open Scope string_scope.

(** ** Objects: own enumerable string-keyed properties, in enumeration order

    [qs.stringify] walks [Object.keys], so the order of the properties is
    part of what gets signed: an object is an association list, not a finite
    map. JavaScript enumerates the names that are array indices (["0"],
    ["1"], ...) first, in ascending numeric order, and the other names after
    them in the order they were created. *)

(** An array index as a property name: the canonical decimal numeral of an
    integer below [2^32 - 1]. *)
Definition index_of (k : string) : option N :=
  match NilEmpty.uint_of_string k with
  | Some u =>
      if String.eqb (NilZero.string_of_uint (Decimal.unorm u)) k
         && (N.of_uint u <? 4294967295)%N
      then Some (N.of_uint u)
      else None
  | None => None
  end.

(** [before k k']: [k] is enumerated before [k'] whenever both are there,
    whichever was created first. *)
Definition before (k k' : string) : bool :=
  match index_of k, index_of k' with
  | Some i, Some j => (i <? j)%N
  | Some _, None => true
  | None, _ => false
  end.

(** No name of the list has a later name that belongs before it. *)
Fixpoint ordered (ks : list string) : Prop :=
  match ks with
  | [] => True
  | k :: rest => Forall (fun k' => before k' k = false) rest /\ ordered rest
  end.

Section Props.
Context {A : Type}.

Definition props := list (string * A).

Definition keys (o : props) : list string := map fst o.

(** No property name occurs twice. *)
Definition distinct (o : props) : Prop := NoDup (keys o).

(** The own properties of an object, as JavaScript enumerates them. *)
Definition object (o : props) : Prop := distinct o /\ ordered (keys o).

(** [o[k]] for an own property; [None] when [o] has no property [k]. *)
Fixpoint lookup (k : string) (o : props) : option A :=
  match o with
  | [] => None
  | (k', v) :: rest => if String.eqb k k' then Some v else lookup k rest
  end.

Definition has (k : string) (o : props) : bool :=
  match lookup k o with Some _ => true | None => false end.

(** [o[k] = v]: an existing property keeps its place and takes the new
    value; a new one is created, and is enumerated last unless it is an
    array index, which goes to its numeric place before the other names. *)
Fixpoint assign (k : string) (v : A) (o : props) : props :=
  match o with
  | [] => [(k, v)]
  | (k', v') :: rest =>
      if String.eqb k k' then (k', v) :: rest
      else if before k k' && negb (has k rest) then (k, v) :: (k', v') :: rest
      else (k', v') :: assign k v rest
  end.

(** [{ ...dst, ...src }]: the properties of [src] are assigned onto [dst]
    one by one, in [src]'s order. *)
Definition spread (src dst : props) : props :=
  fold_left (fun acc kv => assign (fst kv) (snd kv) acc) src dst.

(** [delete o[k]]. *)
Definition remove (k : string) (o : props) : props :=
  filter (fun kv => negb (String.eqb k (fst kv))) o.

(** An optional argument that is spread: [...undefined] and [...null]
    contribute nothing. *)
Definition own (o : option props) : props :=
  match o with Some p => p | None => [] end.
End Props.

Arguments props : clear implicits.

(** ** Numbers

    A JavaScript Number is an IEEE 754 double. [String(x)] prints the
    shortest decimal numeral that reads back as [x], in positional form when
    the decimal point falls within 21 digits to the right or 6 zeros to the
    left of the first digit, and in exponent form otherwise ([1e+21],
    [1e-7]). *)
Module Number.
Local Open Scope Z_scope.

(** [num / den] rounded to the nearest integer, a tie to the even one. *)
Definition nearest (num den : Z) : Z :=
  let q := num / den in
  let r := 2 * (num mod den) in
  if r <? den then q
  else if den <? r then q + 1
  else if Z.even q then q else q + 1.

Definition ceiling (num den : Z) : Z := - ((- num) / den).

(** The fraction [fst x / snd x] times [b ^ k], for any integer [k]. *)
Definition scale (b : Z) (k : Z) (x : Z * Z) : Z * Z :=
  if 0 <=? k then (fst x * b ^ k, snd x) else (fst x, snd x * b ^ (- k)).

(** The magnitude of a double: [M * 2^E] with [0 < M < 2^53] and
    [-1074 <= E <= 971], where [M < 2^52] only at [E = -1074]. *)
Inductive binary64 : Type :=
| Zero
| Finite (M E : Z)
| Overflow.

(** The double nearest to a positive fraction, a tie to the even
    significand. *)
Definition round (x : Z * Z) : binary64 :=
  let l := Z.log2 (fst x) - Z.log2 (snd x) in
  let y := scale 2 (- l) x in
  let e := if fst y <? snd y then l - 1 else l in
  let E := Z.max (e - 52) (-1074) in
  let z := scale 2 (- E) x in
  let M := nearest (fst z) (snd z) in
  let E' := if M =? 2 ^ 53 then E + 1 else E in
  let M' := if M =? 2 ^ 53 then 2 ^ 52 else M in
  if 971 <? E' then Overflow
  else if M' =? 0 then Zero
  else Finite M' E'.

(** The multiple [c * 10^q] that reads back as [M * 2^E] and is nearest to
    it, if there is one. What reads back as a double lies between the
    midpoints to its two neighbours, the midpoints themselves included when
    [M] is even; below a power of two the lower neighbour is half as far. The
    bounds are counted in quarters of [2^E]. *)
Definition candidate (M E q : Z) : option Z :=
  let unit := scale 10 (- q) (scale 2 (E - 2) (1, 1)) in
  let den := snd unit in
  let lo :=
    (if (M =? 2 ^ 52) && (-1074 <? E) then 4 * M - 1 else 4 * M - 2) * fst unit in
  let hi := (4 * M + 2) * fst unit in
  let v := 4 * M * fst unit in
  let c_min := if Z.even M then ceiling lo den else lo / den + 1 in
  let c_max := if Z.even M then hi / den else ceiling hi den - 1 in
  if c_max <? c_min then None
  else
    let below := v / den in
    if below <? c_min then Some (below + 1)
    else if c_max <? below + 1 then Some below
    else Some (nearest v den).

Fixpoint search (fuel : nat) (M E q : Z) : Z * Z :=
  match fuel with
  | O => (0, 0)
  | S fuel' =>
      match candidate M E q with
      | Some c => (c, q)
      | None => search fuel' M E (q - 1)
      end
  end.

(** The shortest numeral [c * 10^q] of [M * 2^E]: the largest [q] that has
    a candidate, looked for downwards from a power of ten above the double.
    A double has a numeral of at most 17 digits, so the search ends well
    within its 48 steps. *)
Definition shortest (M E : Z) : Z * Z :=
  let bits := Z.log2 (4 * M + 2) + E - 1 in
  search 48 M E ((bits * 30103) / 100000 + 2).

Fixpoint zeros (n : nat) : string :=
  match n with O => "" | S n' => String "0" (zeros n') end.

Definition digits (c : Z) : string := NilZero.string_of_int (Z.to_int c).

(** The digits [s] with the decimal point after the first [n] of them. *)
Definition layout (s : string) (n : Z) : string :=
  let k := Z.of_nat (String.length s) in
  if (k <=? n) && (n <=? 21) then s ++ zeros (Z.to_nat (n - k))
  else if (0 <? n) && (n <=? 21) then
    String.substring 0 (Z.to_nat n) s ++ "."
      ++ String.substring (Z.to_nat n) (Z.to_nat (k - n)) s
  else if (-6 <? n) && (n <=? 0) then "0." ++ zeros (Z.to_nat (- n)) ++ s
  else
    let e := n - 1 in
    let exponent := (if e <? 0 then "e-" else "e+") ++ digits (Z.abs e) in
    if k =? 1 then s ++ exponent
    else String.substring 0 1 s ++ "."
           ++ String.substring 1 (Z.to_nat (k - 1)) s ++ exponent.

Definition print (x : binary64) : string :=
  match x with
  | Zero => "0"
  | Overflow => "Infinity"
  | Finite M E =>
      let cq := shortest M E in
      let s := digits (fst cq) in
      layout s (Z.of_nat (String.length s) + snd cq)
  end.

(** The magnitude of the Number that the literal [m e] denotes: the double
    nearest to [m * 10^e]. *)
Definition of_literal (m e : Z) : binary64 :=
  if m =? 0 then Zero else round (scale 10 e (Z.abs m, 1)).

(** [String(x)] for the Number that the literal [m e] denotes. *)
Definition toString (m e : Z) : string :=
  match of_literal m e with
  | Zero => "0"
  | x => (if m <? 0 then "-" else "") ++ print x
  end.

End Number.

(** A Number as a program can write it: a decimal literal [m e], which
    denotes the double nearest to [m * 10^e], or one of the Numbers that no
    literal denotes. *)
Inductive float : Type :=
| Lit (m e : Z)
| NaN
| Infinity (negative : bool).

(** ** Values

    What a configuration object, a request descriptor, a response or a
    thrown error can hold. [Num n] is the integral Number [n], which is what
    the code itself produces ([Date.now()], [5000], [3000], [0]), and stands
    for the double nearest to [n]; any other Number is a [Float]. A function
    value is kept as an opaque name. *)

#[local] Set Warnings "-register-all".

Inductive value : Type :=
| Undefined
| Null
| Bool (b : bool)
| Num (n : Z)
| Float (x : float)
| Str (s : string)
| Obj (fields : props value)
| Fun (name : string).

(** [ToBoolean]. *)
Definition truthy (v : value) : bool :=
  match v with
  | Undefined | Null => false
  | Bool b => b
  | Num n => negb (n =? 0)%Z
  | Float (Lit m e) =>
      match Number.of_literal m e with Number.Zero => false | _ => true end
  | Float NaN => false
  | Float (Infinity _) => true
  | Str s => negb (String.eqb s "")
  | Obj _ | Fun _ => true
  end.

(** [a || b]. *)
Definition js_or (a b : value) : value := if truthy a then a else b.

(** What a statement or an expression can do besides yielding a value:
    throw. The one exception this code can raise by itself is the
    [TypeError] of reading a property of [undefined] or [null]. *)
Inductive exn : Type :=
| TypeError (reading : string)
| Raised (v : value).

Inductive completion (A : Type) : Type :=
| Normal (a : A)
| Throw (e : exn).

Arguments Normal {A} a.
Arguments Throw {A} e.

Definition bind {A B} (c : completion A) (k : A -> completion B) : completion B :=
  match c with
  | Normal a => k a
  | Throw e => Throw e
  end.

Notation "'let*' x ':=' c 'in' k" := (bind c (fun x => k))
  (at level 10, x name, c at level 100, k at level 200).

(** [v.k] for the names this code reads ([response], [data], [error]): an
    own property of an object; [undefined] on a primitive or a function,
    none of which carries such a property; a [TypeError] on [undefined] and
    [null]. *)
Definition get (v : value) (k : string) : completion value :=
  match v with
  | Undefined | Null => Throw (TypeError k)
  | Obj fields =>
      match lookup k fields with
      | Some x => Normal x
      | None => Normal Undefined
      end
  | Bool _ | Num _ | Float _ | Str _ | Fun _ => Normal Undefined
  end.

(** [String(n)] for an integral Number. *)
Definition string_of_number (n : Z) : string := Number.toString n 0.

(** [String(x)] for any other Number. *)
Definition string_of_float (x : float) : string :=
  match x with
  | Lit m e => Number.toString m e
  | NaN => "NaN"
  | Infinity false => "Infinity"
  | Infinity true => "-Infinity"
  end.

(** The characters of a string as the indexed properties spread copies
    out of it: [{ ..."ab" }] is [{ 0: "a", 1: "b" }]. *)
Fixpoint chars_from (i : nat) (s : string) : props value :=
  match s with
  | EmptyString => []
  | String c rest =>
      (string_of_number (Z.of_nat i), Str (String c EmptyString))
        :: chars_from (S i) rest
  end.

(** The own enumerable properties that [...v] copies. *)
Definition own_of (v : value) : props value :=
  match v with
  | Obj fields => fields
  | Str s => chars_from 0 s
  | Undefined | Null | Bool _ | Num _ | Float _ | Fun _ => []
  end.

(** ** Request bodies: [IPostBody]

    [{ [key: string]: string | number | boolean }]. *)

Inductive scalar : Type :=
| SStr (s : string)
| SNum (n : Z)
| SFloat (x : float)
| SBool (b : bool).

Definition IPostBody := props scalar.

Definition value_of_scalar (x : scalar) : value :=
  match x with
  | SStr s => Str s
  | SNum n => Num n
  | SFloat x => Float x
  | SBool b => Bool b
  end.

(** A body as the value handed to the transport in [data]. *)
Definition value_of_body (b : IPostBody) : value :=
  Obj (map (fun kv => (fst kv, value_of_scalar (snd kv))) b).

(** [String(x)]. *)
Definition string_of_scalar (x : scalar) : string :=
  match x with
  | SStr s => s
  | SNum n => string_of_number n
  | SFloat x => string_of_float x
  | SBool true => "true"
  | SBool false => "false"
  end.

(** ** [qs.stringify] on a flat body

    Each property becomes [encode(key) + '=' + encode(String(value))], the
    pieces are joined with ['&']; [null], [undefined] and the empty object
    give the empty string. [encode] is [qs]'s default encoder: the
    unreserved characters of RFC 3986 stay, every other byte of the UTF-8
    text becomes [%XX] in upper-case hexadecimal. A string here is its UTF-8
    bytes. *)
Module QS.

Definition unreserved (c : ascii) : bool :=
  let n := N_of_ascii c in
  ((n =? 45) || (n =? 46) || (n =? 95) || (n =? 126)
   || ((48 <=? n) && (n <=? 57))
   || ((65 <=? n) && (n <=? 90))
   || ((97 <=? n) && (n <=? 122)))%N.

Definition hexdigit (n : N) : ascii :=
  if (n <? 10)%N then ascii_of_N (48 + n) else ascii_of_N (55 + n).

Definition percent (c : ascii) : string :=
  let n := N_of_ascii c in
  String "%" (String (hexdigit (n / 16)) (String (hexdigit (n mod 16)) EmptyString)).

Fixpoint encode (s : string) : string :=
  match s with
  | EmptyString => EmptyString
  | String c rest =>
      if unreserved c then String c (encode rest) else percent c ++ encode rest
  end.

Definition pair (kv : string * scalar) : string :=
  encode (fst kv) ++ "=" ++ encode (string_of_scalar (snd kv)).

Definition stringify (o : option IPostBody) : string :=
  String.concat "&" (map pair (own o)).

End QS.

(** ** [crypto.createHmac('sha256', secret).update(text).digest('hex')]

    HMAC (RFC 2104) over SHA-256 (FIPS 180-4), on the UTF-8 bytes of the
    secret and of the text. Words are 32-bit, held in [N] with the
    wrap-around written out. The round constants and the initial state are
    derived the way the standard defines them, from the first 64 primes. *)
Module Crypto.
Local Open Scope list_scope.
Local Open Scope N_scope.

Definition w32 (x : N) : N := x mod 4294967296.
Definition add32 (x y : N) : N := w32 (x + y).
Definition rotr (n x : N) : N := N.lor (N.shiftr x n) (w32 (N.shiftl x (32 - n))).
Definition not32 (x : N) : N := N.lxor x 4294967295.

Definition Ch (x y z : N) : N := N.lxor (N.land x y) (N.land (not32 x) z).
Definition Maj (x y z : N) : N :=
  N.lxor (N.lxor (N.land x y) (N.land x z)) (N.land y z).
Definition bsig0 (x : N) : N := N.lxor (N.lxor (rotr 2 x) (rotr 13 x)) (rotr 22 x).
Definition bsig1 (x : N) : N := N.lxor (N.lxor (rotr 6 x) (rotr 11 x)) (rotr 25 x).
Definition ssig0 (x : N) : N := N.lxor (N.lxor (rotr 7 x) (rotr 18 x)) (N.shiftr x 3).
Definition ssig1 (x : N) : N := N.lxor (N.lxor (rotr 17 x) (rotr 19 x)) (N.shiftr x 10).

Definition is_prime (p : N) : bool :=
  (1 <? p) && forallb (fun d => negb (p mod d =? 0))
                      (map N.of_nat (seq 2 (N.to_nat (N.sqrt p) - 1))).

Definition primes64 : list N :=
  Eval vm_compute in filter is_prime (map N.of_nat (seq 2 310)).

(** The integer cube root, by bisection between [lo] and [hi]. *)
Fixpoint cbrt_between (fuel : nat) (x lo hi : N) : N :=
  match fuel with
  | O => lo
  | S fuel' =>
      let mid := (lo + hi + 1) / 2 in
      if mid * mid * mid <=? x
      then cbrt_between fuel' x mid hi
      else cbrt_between fuel' x lo (mid - 1)
  end.

(** First 32 bits of the fractional part of the cube root of each prime. *)
Definition K : list N :=
  Eval vm_compute in
    map (fun p => w32 (cbrt_between 40 (p * 2 ^ 96) 0 (2 ^ 36))) primes64.

(** First 32 bits of the fractional part of the square root of each of
    the first eight primes. *)
Definition H0 : list N :=
  Eval vm_compute in map (fun p => w32 (N.sqrt (p * 2 ^ 64))) (firstn 8 primes64).

Fixpoint be_bytes (len : nat) (x : N) : list N :=
  match len with
  | O => []
  | S len' => be_bytes len' (x / 256) ++ [x mod 256]
  end.

Definition pad (msg : list N) : list N :=
  let l := N.of_nat (length msg) in
  msg ++ [128] ++ repeat 0 (N.to_nat ((119 - l mod 64) mod 64)) ++ be_bytes 8 (8 * l).

Fixpoint words (bs : list N) : list N :=
  match bs with
  | a :: b :: c :: d :: rest => (((a * 256 + b) * 256 + c) * 256 + d) :: words rest
  | _ => []
  end.

Fixpoint blocks (fuel : nat) (ws : list N) : list (list N) :=
  match fuel, ws with
  | S fuel', _ :: _ => firstn 16 ws :: blocks fuel' (skipn 16 ws)
  | _, _ => []
  end.

(** [schedule n w]: [w] holds [W_0 .. W_(t-1)]; [n] more words follow. *)
Fixpoint schedule (n : nat) (w : list N) : list N :=
  match n with
  | O => w
  | S n' =>
      let t := length w in
      let at_ (i : nat) := nth (t - i) w 0 in
      schedule n' (w ++ [add32 (add32 (ssig1 (at_ 2%nat)) (at_ 7%nat))
                               (add32 (ssig0 (at_ 15%nat)) (at_ 16%nat))])
  end.

Definition round (s : list N) (kw : N * N) : list N :=
  match s with
  | [a; b; c; d; e; f; g; h] =>
      let t1 := add32 (add32 (add32 (add32 h (bsig1 e)) (Ch e f g)) (fst kw)) (snd kw) in
      let t2 := add32 (bsig0 a) (Maj a b c) in
      [add32 t1 t2; a; b; c; add32 d t1; e; f; g]
  | _ => s
  end.

Definition compress (h : list N) (block : list N) : list N :=
  map (fun xy => add32 (fst xy) (snd xy))
      (combine h (fold_left round (combine K (schedule 48 block)) h)).

Definition sha256 (msg : list N) : list N :=
  let ws := words (pad msg) in
  flat_map (be_bytes 4) (fold_left compress (blocks (length ws) ws) H0).

Definition hmac_sha256 (key msg : list N) : list N :=
  let key0 := if 64 <? N.of_nat (length key) then sha256 key else key in
  let key64 := key0 ++ repeat 0 (64 - length key0)%nat in
  sha256 (map (N.lxor 92) key64 ++ sha256 (map (N.lxor 54) key64 ++ msg)).

Definition bytes_of_string (s : string) : list N :=
  map N_of_ascii (list_ascii_of_string s).

Definition hexchar (n : N) : ascii :=
  if n <? 10 then ascii_of_N (48 + n) else ascii_of_N (87 + n).

Definition hex (bs : list N) : string :=
  string_of_list_ascii (flat_map (fun b => [hexchar (b / 16); hexchar (b mod 16)]) bs).

Definition sha256_hex (text : string) : string :=
  hex (sha256 (bytes_of_string text)).

(** [createHmac('sha256', secret).update(text).digest('hex')]. *)
Definition createHmac_sha256_hex (secret text : string) : string :=
  hex (hmac_sha256 (bytes_of_string secret) (bytes_of_string text)).

End Crypto.

Arguments Crypto.createHmac_sha256_hex : simpl never.
Arguments QS.stringify : simpl never.

(** ** The world around the agent

    [Date.now()] reads the wall clock; [axios(config)] hands a request
    descriptor to the network, which answers with a response or fails with
    an error. The descriptors handed over are recorded in [wire], in order:
    this is what a transport spy would see. *)

Definition descriptor := props value.

Inductive settled : Type :=
| Fulfilled (response : value)
| Failed (err : value).

Record World : Type := {
  clock : Z;
  network : descriptor -> settled;
  wire : list descriptor
}.

Definition Date_now (w : World) : Z := clock w.

Definition axios (agentConfig : descriptor) (w : World) : settled * World :=
  (network w agentConfig,
   {| clock := clock w; network := network w; wire := wire w ++ [agentConfig] |}).

(** Time passing between two calls. *)
Definition elapse (ms : Z) (w : World) : World :=
  {| clock := clock w + ms; network := network w; wire := wire w |}.

(** How an [async] function ends: its promise resolves with a value or
    rejects with a reason. *)
Inductive promise : Type :=
| Resolved (v : value)
| Rejected (reason : exn).

(** [o.k] on an object literal of the source. *)
Definition field (k : string) (o : props value) : value :=
  match lookup k o with Some v => v | None => Undefined end.

(** [headers[name]] of a request descriptor. *)
Definition header (name : string) (d : descriptor) : option value :=
  lookup name (own_of (field "headers" d)).

Record ISignature : Type := {
  digest : string;
  body : IPostBody
}.

Record IApiAuth : Type := {
  publicKey : string;
  privateKey : string
}.

Definition value_of_auth (a : IApiAuth) : value :=
  Obj [("publicKey", Str (publicKey a)); ("privateKey", Str (privateKey a))].

(** The state of a raw agent: its [auth] property, [undefined] until keys
    are supplied. *)
Record IRawAgent : Type := {
  auth : option IApiAuth
}.

(** [err.response.data.error || err.response.data || err.response || err],
    evaluated left to right as in the [catch] block of [privateRequest]
    (the same line in both versions). *)
Definition rejectionReason (err : value) : completion value :=
  let* response := get err "response" in
  let* data := get response "data" in
  let* error := get data "error" in
  Normal (js_or (js_or (js_or error data) response) err).

(** The promise an [async] body returns from its [catch] block. *)
Definition reject_with (c : completion value) : promise :=
  match c with
  | Normal reason => Rejected (Raised reason)
  | Throw e => Rejected e
  end.

Definition keys_required : value :=
  Str "api keys are required to access private endpoints".

(** What a caller can do with an agent, one step at a time. *)
Inductive call : Type :=
| Upgrade (newAuth : IApiAuth)
| PrivateRequest (endpoint method : string) (params : option IPostBody)
                 (configOverride : option (props value))
| PublicRequest (endpoint : string) (queryParams : option IPostBody)
                (configOverride : option (props value))
| Elapse (ms : Z).

(** ** The first version of [index.ts] *)
Module V1.

Definition defaultConfig : props value :=
  [("rootUrl", Str "https://api.binance.com");
   ("timeout", Num 3000);
   ("version", Str "v3")].

Definition defaultAgentConfig : props value :=
  [("baseURL", field "rootUrl" defaultConfig);
   ("headers", Obj [("Cache-Control", Str "no-cache");
                    ("Content-Length", Num 0);
                    ("Content-Type", Str "text/plain");
                    ("User-Agent",
                     Str "Binance API Client (binance-cryptoexchange-api node package)")]);
   ("method", Str "GET");
   ("timeout", field "timeout" defaultConfig)].

Definition publicAgentConfig : props value := spread defaultAgentConfig [].

Definition privateAgentConfig : props value :=
  assign "method" (Str "POST") (spread defaultAgentConfig []).

Definition signMessage (w : World) (postData : option IPostBody) (secret : string)
  : ISignature :=
  let timestamp := Date_now w in
  let signedBody := assign "timestamp" (SNum timestamp) (spread (own postData) []) in
  let digest := Crypto.createHmac_sha256_hex secret (QS.stringify (Some signedBody)) in
  let body := assign "signature" (SStr digest) (spread signedBody []) in
  {| digest := digest; body := body |}.

Definition getRawAgent (auth : option IApiAuth) : IRawAgent := {| auth := auth |}.

Definition publicRequest (this : IRawAgent) (endpoint : string)
           (queryParams : option IPostBody) (configOverride : option (props value))
           (w : World) : promise * World :=
  let config := spread (own configOverride) (spread defaultConfig []) in
  let uri := "/" ++ endpoint ++ "?" ++ QS.stringify queryParams in
  let agentConfig := spread config (assign "url" (Str uri) (spread publicAgentConfig [])) in
  match axios agentConfig w with
  | (Fulfilled response, w') => (Resolved response, w')
  | (Failed err, w') => (Rejected (Raised err), w')
  end.

(** [return this.auth;] *)
Definition isUpgraded (this : IRawAgent) : value :=
  match auth this with
  | Some a => value_of_auth a
  | None => Undefined
  end.

Definition privateRequest (this : IRawAgent) (endpoint method : string)
           (params : option IPostBody) (configOverride : option (props value))
           (w : World) : promise * World :=
  if negb (truthy (isUpgraded this)) then (Rejected (Raised keys_required), w)
  else
    let config := spread (own configOverride) (spread defaultConfig []) in
    match auth this with
    | None => (Rejected (TypeError "privateKey"), w)
    | Some a =>
        let signatureData := signMessage w params (privateKey a) in
        let headersOverride := js_or (field "headers" config) Null in
        let headers :=
          spread (own_of headersOverride)
                 (assign "X-MBX-APIKEY" (Str (publicKey a))
                         (spread (own_of (field "headers" privateAgentConfig)) [])) in
        let data := body signatureData in
        let postData := if method =? "GET" then Null else value_of_body data in
        let uri :=
          if method =? "GET"
          then "/" ++ endpoint ++ "?" ++ QS.stringify (Some data)
          else "/" ++ endpoint in
        let agentConfig :=
          spread config
                 (assign "data" postData
                    (assign "url" (Str uri)
                       (assign "method" (Str method)
                          (assign "headers" (Obj headers)
                             (spread privateAgentConfig []))))) in
        match axios agentConfig w with
        | (Fulfilled response, w') => (Resolved response, w')
        | (Failed err, w') => (reject_with (rejectionReason err), w')
        end
    end.

(** [this.auth = newAuth;] *)
Definition upgrade (newAuth : IApiAuth) (this : IRawAgent) : IRawAgent :=
  {| auth := Some newAuth |}.

Definition step (c : call) (s : IRawAgent * World) : IRawAgent * World :=
  let (this, w) := s in
  match c with
  | Upgrade newAuth => (upgrade newAuth this, w)
  | PrivateRequest endpoint method params configOverride =>
      (this, snd (privateRequest this endpoint method params configOverride w))
  | PublicRequest endpoint queryParams configOverride =>
      (this, snd (publicRequest this endpoint queryParams configOverride w))
  | Elapse ms => (this, elapse ms w)
  end.

Definition run (cs : list call) (s : IRawAgent * World) : IRawAgent * World :=
  fold_left (fun s c => step c s) cs s.

End V1.

(** ** The later version of [index.ts]: [recvWindow] and [validateStatus] *)
Module V2.

Definition defaultConfig : props value :=
  [("recvWindow", Num 5000);
   ("rootUrl", Str "https://api.binance.com");
   ("timeout", Num 3000);
   ("version", Str "v3")].

Definition defaultAgentConfig : props value :=
  [("baseURL", field "rootUrl" defaultConfig);
   ("headers", Obj [("Cache-Control", Str "no-cache");
                    ("Content-Length", Num 0);
                    ("Content-Type", Str "application/x-www-form-urlencoded");
                    ("User-Agent",
                     Str "Binance API Client (binance-cryptoexchange-api node package)")]);
   ("method", Str "GET");
   ("timeout", field "timeout" defaultConfig);
   ("validateStatus", Fun "() => true")].

Definition publicAgentConfig : props value := spread defaultAgentConfig [].

Definition privateAgentConfig : props value :=
  assign "method" (Str "POST") (spread defaultAgentConfig []).

(** [defaultConfig.recvWindow], a number. *)
Definition recvWindow : Z :=
  match field "recvWindow" defaultConfig with Num n => n | _ => 0 end.

Definition signMessage (w : World) (postData : option IPostBody) (secret : string)
  : ISignature :=
  let timestamp := Date_now w in
  let signedBody :=
    assign "recvWindow" (SNum recvWindow)
           (assign "timestamp" (SNum timestamp) (spread (own postData) [])) in
  let digest := Crypto.createHmac_sha256_hex secret (QS.stringify (Some signedBody)) in
  let body := assign "signature" (SStr digest) (spread signedBody []) in
  {| digest := digest; body := body |}.

Definition getRawAgent (auth : option IApiAuth) : IRawAgent := {| auth := auth |}.

Definition publicRequest (this : IRawAgent) (endpoint : string)
           (queryParams : option IPostBody) (configOverride : option (props value))
           (w : World) : promise * World :=
  let config := spread (own configOverride) (spread defaultConfig []) in
  let uri := "/" ++ endpoint ++ "?" ++ QS.stringify queryParams in
  let agentConfig := spread config (assign "url" (Str uri) (spread publicAgentConfig [])) in
  match axios agentConfig w with
  | (Fulfilled response, w') => (Resolved response, w')
  | (Failed err, w') => (Rejected (Raised err), w')
  end.

(** [return this.auth;] *)
Definition isUpgraded (this : IRawAgent) : value :=
  match auth this with
  | Some a => value_of_auth a
  | None => Undefined
  end.

Definition privateRequest (this : IRawAgent) (endpoint method : string)
           (params : option IPostBody) (configOverride : option (props value))
           (w : World) : promise * World :=
  if negb (truthy (isUpgraded this)) then (Rejected (Raised keys_required), w)
  else
    let config := spread (own configOverride) (spread defaultConfig []) in
    match auth this with
    | None => (Rejected (TypeError "privateKey"), w)
    | Some a =>
        let signatureData := signMessage w params (privateKey a) in
        let headersOverride := js_or (field "headers" config) Null in
        let headers :=
          spread (own_of headersOverride)
                 (assign "X-MBX-APIKEY" (Str (publicKey a))
                         (spread (own_of (field "headers" privateAgentConfig)) [])) in
        let data := body signatureData in
        let uri := "/" ++ endpoint ++ "?" ++ QS.stringify (Some data) in
        let agentConfig :=
          spread config
                 (assign "url" (Str uri)
                    (assign "method" (Str method)
                       (assign "headers" (Obj headers)
                          (spread privateAgentConfig [])))) in
        match axios agentConfig w with
        | (Fulfilled response, w') => (Resolved response, w')
        | (Failed err, w') => (reject_with (rejectionReason err), w')
        end
    end.

(** [this.auth = newAuth;] *)
Definition upgrade (newAuth : IApiAuth) (this : IRawAgent) : IRawAgent :=
  {| auth := Some newAuth |}.

Definition step (c : call) (s : IRawAgent * World) : IRawAgent * World :=
  let (this, w) := s in
  match c with
  | Upgrade newAuth => (upgrade newAuth this, w)
  | PrivateRequest endpoint method params configOverride =>
      (this, snd (privateRequest this endpoint method params configOverride w))
  | PublicRequest endpoint queryParams configOverride =>
      (this, snd (publicRequest this endpoint queryParams configOverride w))
  | Elapse ms => (this, elapse ms w)
  end.

Definition run (cs : list call) (s : IRawAgent * World) : IRawAgent * World :=
  fold_left (fun s c => step c s) cs s.

End V2.

(** ** [IRawAgent]: the methods a client calls on its raw agent

    [getClient] holds the object that [getRawAgent] of its own file returns
    and calls it through the [IRawAgent] interface; the two versions of the
    file supply the two method tables. *)
Module RawAgent.

Record Methods : Type := {
  getRawAgent : option IApiAuth -> IRawAgent;
  isUpgraded : IRawAgent -> value;
  publicRequest : IRawAgent -> string -> option IPostBody -> option (props value) ->
                  World -> promise * World;
  privateRequest : IRawAgent -> string -> string -> option IPostBody ->
                   option (props value) -> World -> promise * World;
  signMessage : World -> option IPostBody -> string -> ISignature;
  upgrade : IApiAuth -> IRawAgent -> IRawAgent
}.

Definition first : Methods :=
  {| getRawAgent := V1.getRawAgent;
     isUpgraded := V1.isUpgraded;
     publicRequest := V1.publicRequest;
     privateRequest := V1.privateRequest;
     signMessage := V1.signMessage;
     upgrade := V1.upgrade |}.

Definition later : Methods :=
  {| getRawAgent := V2.getRawAgent;
     isUpgraded := V2.isUpgraded;
     publicRequest := V2.publicRequest;
     privateRequest := V2.privateRequest;
     signMessage := V2.signMessage;
     upgrade := V2.upgrade |}.

Definition versions : list Methods := [first; later].

End RawAgent.

(** ** [getClient]: one method per endpoint (the same text in both versions)

    The client's state is its [rawAgent]; [configOverride] is the argument
    of [getClient] that every method closes over ([null] by default). The
    parameter objects are passed through as they are. *)
Module Client.

Record IBinanceClient : Type := {
  rawAgent : IRawAgent;
  configOverride : option (props value)
}.

Section Methods.
Variable M : RawAgent.Methods.

Definition getClient (auth : option IApiAuth) (configOverride : option (props value))
  : IBinanceClient :=
  {| rawAgent := RawAgent.getRawAgent M auth; configOverride := configOverride |}.

Definition isUpgraded (this : IBinanceClient) : value :=
  RawAgent.isUpgraded M (rawAgent this).

Definition upgrade (newAuth : IApiAuth) (this : IBinanceClient) : IBinanceClient :=
  {| rawAgent := RawAgent.upgrade M newAuth (rawAgent this);
     configOverride := configOverride this |}.

Definition ping (this : IBinanceClient) (w : World) : promise * World :=
  RawAgent.publicRequest M (rawAgent this) "api/v1/ping" None (configOverride this) w.

Definition getServerTime (this : IBinanceClient) (w : World) : promise * World :=
  RawAgent.publicRequest M (rawAgent this) "api/v1/time" None (configOverride this) w.

Definition getOrderBook (this : IBinanceClient) (params : IPostBody) (w : World)
  : promise * World :=
  RawAgent.publicRequest M (rawAgent this) "api/v1/depth" (Some params)
                         (configOverride this) w.

Definition getAggregateTradesList (this : IBinanceClient) (params : IPostBody) (w : World)
  : promise * World :=
  RawAgent.publicRequest M (rawAgent this) "api/v1/aggTrades" (Some params)
                         (configOverride this) w.

Definition getCandles (this : IBinanceClient) (params : IPostBody) (w : World)
  : promise * World :=
  RawAgent.publicRequest M (rawAgent this) "api/v1/klines" (Some params)
                         (configOverride this) w.

Definition get24HourStats (this : IBinanceClient) (symbolId : string) (w : World)
  : promise * World :=
  RawAgent.publicRequest M (rawAgent this) "api/v1/ticker/24hr"
                         (Some [("symbol", SStr symbolId)]) (configOverride this) w.

Definition getPrices (this : IBinanceClient) (w : World) : promise * World :=
  RawAgent.publicRequest M (rawAgent this) "api/v1/ticker/allPrices" None
                         (configOverride this) w.

Definition getTickerTape (this : IBinanceClient) (w : World) : promise * World :=
  RawAgent.publicRequest M (rawAgent this) "api/v1/ticker/allBookTickers" None
                         (configOverride this) w.

Definition placeNewOrder (this : IBinanceClient) (params : IPostBody) (w : World)
  : promise * World :=
  RawAgent.privateRequest M (rawAgent this) "api/v3/order" "POST" (Some params)
                          (configOverride this) w.

Definition placeNewTestOrder (this : IBinanceClient) (params : IPostBody) (w : World)
  : promise * World :=
  RawAgent.privateRequest M (rawAgent this) "api/v3/order/test" "POST" (Some params)
                          (configOverride this) w.

Definition getOrder (this : IBinanceClient) (params : IPostBody) (w : World)
  : promise * World :=
  RawAgent.privateRequest M (rawAgent this) "api/v3/order" "GET" (Some params)
                          (configOverride this) w.

Definition cancelOrder (this : IBinanceClient) (params : IPostBody) (w : World)
  : promise * World :=
  RawAgent.privateRequest M (rawAgent this) "api/v3/order" "DELETE" (Some params)
                          (configOverride this) w.

Definition getOpenOrders (this : IBinanceClient) (tradingSymbol : string) (w : World)
  : promise * World :=
  RawAgent.privateRequest M (rawAgent this) "api/v3/openOrders" "GET"
                          (Some [("symbol", SStr tradingSymbol)]) (configOverride this) w.

Definition getAllOrders (this : IBinanceClient) (params : IPostBody) (w : World)
  : promise * World :=
  RawAgent.privateRequest M (rawAgent this) "api/v3/allOrders" "GET" (Some params)
                          (configOverride this) w.

Definition getAccountInformation (this : IBinanceClient) (w : World) : promise * World :=
  RawAgent.privateRequest M (rawAgent this) "api/v3/account" "GET" None
                          (configOverride this) w.

Definition getAccountTradeList (this : IBinanceClient) (params : IPostBody) (w : World)
  : promise * World :=
  RawAgent.privateRequest M (rawAgent this) "api/v3/myTrades" "GET" (Some params)
                          (configOverride this) w.

Definition requestCryptoWithdrawal (this : IBinanceClient) (params : IPostBody) (w : World)
  : promise * World :=
  RawAgent.privateRequest M (rawAgent this) "wapi/v3/withdraw.html" "POST" (Some params)
                          (configOverride this) w.

Definition getDepositHistory (this : IBinanceClient) (params : IPostBody) (w : World)
  : promise * World :=
  RawAgent.privateRequest M (rawAgent this) "wapi/v3/depositHistory.html" "GET"
                          (Some params) (configOverride this) w.

Definition getWithdrawalHistory (this : IBinanceClient) (params : IPostBody) (w : World)
  : promise * World :=
  RawAgent.privateRequest M (rawAgent this) "wapi/v3/withdrawHistory.html" "GET"
                          (Some params) (configOverride this) w.

Definition getDepositAddress (this : IBinanceClient) (symbolId : string) (w : World)
  : promise * World :=
  RawAgent.privateRequest M (rawAgent this) "wapi/v3/depositAddress.html" "GET"
                          (Some [("asset", SStr symbolId)]) (configOverride this) w.

End Methods.

(** One request to a client: the method called and its argument. *)
Inductive request : Type :=
| Ping
| GetServerTime
| GetOrderBook (params : IPostBody)
| GetAggregateTradesList (params : IPostBody)
| GetCandles (params : IPostBody)
| Get24HourStats (symbolId : string)
| GetPrices
| GetTickerTape
| PlaceNewOrder (params : IPostBody)
| PlaceNewTestOrder (params : IPostBody)
| GetOrder (params : IPostBody)
| CancelOrder (params : IPostBody)
| GetOpenOrders (tradingSymbol : string)
| GetAllOrders (params : IPostBody)
| GetAccountInformation
| GetAccountTradeList (params : IPostBody)
| RequestCryptoWithdrawal (params : IPostBody)
| GetDepositHistory (params : IPostBody)
| GetWithdrawalHistory (params : IPostBody)
| GetDepositAddress (symbolId : string).

(** The methods under [//<editor-fold desc="accounts and trading">]. *)
Definition accounts_and_trading (r : request) : bool :=
  match r with
  | Ping | GetServerTime | GetOrderBook _ | GetAggregateTradesList _ | GetCandles _
  | Get24HourStats _ | GetPrices | GetTickerTape => false
  | _ => true
  end.

(** Calling the method that [r] names. *)
Definition send (M : RawAgent.Methods) (r : request) (this : IBinanceClient) (w : World)
  : promise * World :=
  match r with
  | Ping => ping M this w
  | GetServerTime => getServerTime M this w
  | GetOrderBook params => getOrderBook M this params w
  | GetAggregateTradesList params => getAggregateTradesList M this params w
  | GetCandles params => getCandles M this params w
  | Get24HourStats symbolId => get24HourStats M this symbolId w
  | GetPrices => getPrices M this w
  | GetTickerTape => getTickerTape M this w
  | PlaceNewOrder params => placeNewOrder M this params w
  | PlaceNewTestOrder params => placeNewTestOrder M this params w
  | GetOrder params => getOrder M this params w
  | CancelOrder params => cancelOrder M this params w
  | GetOpenOrders tradingSymbol => getOpenOrders M this tradingSymbol w
  | GetAllOrders params => getAllOrders M this params w
  | GetAccountInformation => getAccountInformation M this w
  | GetAccountTradeList params => getAccountTradeList M this params w
  | RequestCryptoWithdrawal params => requestCryptoWithdrawal M this params w
  | GetDepositHistory params => getDepositHistory M this params w
  | GetWithdrawalHistory params => getWithdrawalHistory M this params w
  | GetDepositAddress symbolId => getDepositAddress M this symbolId w
  end.

End Client.

(** * Vocabulary of the statements *)

(** The caller's override sets none of the fields [ks]. *)
Definition sets_none_of (ks : list string) (configOverride : option (props value)) : Prop :=
  forall k, In k ks -> lookup k (own configOverride) = None.

(** The signed data travels in the query string of [endpoint]. *)
Definition in_query (endpoint : string) (data : IPostBody) (d : descriptor) : Prop :=
  lookup "url" d = Some (Str ("/" ++ endpoint ++ "?" ++ QS.stringify (Some data))).

(** The signed data travels as the request body. *)
Definition in_body (data : IPostBody) (d : descriptor) : Prop :=
  lookup "data" d = Some (value_of_body data).

Definition not_upgrade (c : call) : bool :=
  match c with Upgrade _ => false | _ => true end.

(** What the returned body of a signature holds, given the names the
    signer itself writes ([reserved]) after copying the caller's body. *)
Definition signed_fields (reserved : list string) (postData : option IPostBody)
           (r : ISignature) : Prop :=
  (forall k, In k (keys (own postData)) -> In k (keys (body r)))
  /\ (forall k v, lookup k (own postData) = Some v -> ~ In k reserved ->
                  lookup k (body r) = Some v)
  /\ (forall k, In k (keys (body r)) -> In k (keys (own postData)) \/ In k reserved)
  /\ lookup "signature" (body r) = Some (SStr (digest r)).

(** Occurrences of a character in a string. *)
Fixpoint count (c : ascii) (s : string) : nat :=
  match s with
  | EmptyString => 0
  | String c' rest => (if Ascii.eqb c c' then 1 else 0) + count c rest
  end.

(** What a signer does with a body that already holds [signature: stale],
    next to what it does with the same body without that property:
    [signedBody] and [signedBody'] are the two bodies whose serialisations
    are given to the HMAC. *)
Definition keeps_stale_signature
           (sign : World -> option IPostBody -> string -> ISignature)
           (w : World) (B : IPostBody) (S : string) (stale : scalar) : Prop :=
  exists (signedBody signedBody' : IPostBody) (front back : string),
    digest (sign w (Some B) S)
    = Crypto.createHmac_sha256_hex S (QS.stringify (Some signedBody))
    /\ digest (sign w (Some (remove "signature" B)) S)
       = Crypto.createHmac_sha256_hex S (QS.stringify (Some signedBody'))
    /\ body (sign w (Some B) S)
       = assign "signature" (SStr (digest (sign w (Some B) S))) signedBody
    /\ body (sign w (Some (remove "signature" B)) S)
       = assign "signature" (SStr (digest (sign w (Some (remove "signature" B)) S)))
                signedBody'
    /\ In ("signature", stale) signedBody
    /\ QS.stringify (Some signedBody)
       = front ++ "signature=" ++ QS.encode (string_of_scalar stale) ++ back
    /\ lookup "signature" signedBody' = None
    /\ lookup "signature" (body (sign w (Some B) S)) = Some (SStr (digest (sign w (Some B) S)))
    /\ QS.stringify (Some signedBody) <> QS.stringify (Some signedBody').

(** ** Fixtures for the closed examples *)

Definition pk2sk2 : IApiAuth := {| publicKey := "pk2"; privateKey := "sk2" |}.

(** A world with a frozen clock whose network answers every request. *)
Definition answering (t : Z) : World :=
  {| clock := t; network := fun _ => Fulfilled (Obj [("status", Num 200)]); wire := [] |}.

(** A world with a frozen clock whose network fails every request with
    [err]. *)
Definition failing (t : Z) (err : value) : World :=
  {| clock := t; network := fun _ => Failed err; wire := [] |}.

(** Calls made after an [upgrade], none of which upgrades again. *)
Definition calls_after_upgrade : list call :=
  [PrivateRequest "api/v3/order" "POST" (Some [("symbol", SStr "BTCUSDT")]) None;
   Elapse 1000;
   PublicRequest "api/v1/time" None None].

(** A caller's body that already carries a [signature]. *)
Definition body_with_stale_signature : IPostBody :=
  [("symbol", SStr "BTCUSDT"); ("signature", SStr "stale")].

(** How many of the calls [cs] get as far as the transport, given the key
    pair held before: every public request, and the private requests made
    while a key pair is held. *)
Fixpoint transport_calls (cs : list call) (held : option IApiAuth) : nat :=
  match cs with
  | [] => 0
  | Upgrade newAuth :: rest => transport_calls rest (Some newAuth)
  | PrivateRequest _ _ _ _ :: rest =>
      (match held with Some _ => 1 | None => 0 end) + transport_calls rest held
  | PublicRequest _ _ _ :: rest => 1 + transport_calls rest held
  | Elapse _ :: rest => transport_calls rest held
  end.

(** The separators of a query made of a fixed path and a body of [n]
    properties. *)
Definition query_of (n : nat) (url : string) : Prop :=
  count "?" url = 1 /\ count "=" url = n /\ count "&" url = pred n.

(** A lower-case hexadecimal digit. *)
Definition is_hex_digit (c : ascii) : bool :=
  let n := N_of_ascii c in
  (((48 <=? n) && (n <=? 57)) || ((97 <=? n) && (n <=? 102)))%N.

(** A configuration override that a failing transport and a sample call
    use in the closed examples. *)
Definition testnet_override : props value :=
  [("rootUrl", Str "https://testnet.example"); ("timeout", Num 10)].

(** * Properties *)

(** ** The two libraries, on known answers *)

Example stringify_ticker :
  QS.stringify (Some [("symbol", SStr "BTCUSDT")]) = "symbol=BTCUSDT".
Proof. reflexivity. Qed.

Example stringify_escapes :
  QS.stringify (Some [("a b", SStr "x&y=z"); ("n", SNum (-12)); ("ok", SBool true)])
  = "a%20b=x%26y%3Dz&n=-12&ok=true".
Proof. reflexivity. Qed.

Example stringify_absent : QS.stringify None = "" /\ QS.stringify (Some []) = "".
Proof. split; reflexivity. Qed.

Example string_of_integral_numbers :
  map string_of_number
      [0; -12; 1500000000000; 9007199254740993; 123456789012345678901;
       1000000000000000000000; 1180591620717411303424]%Z
  = ["0"; "-12"; "1500000000000"; "9007199254740992"; "123456789012345680000";
     "1e+21"; "1.1805916207174113e+21"].
Proof. vm_compute. reflexivity. Qed.

Example string_of_other_numbers :
  map string_of_float
      [Lit 15 (-3); Lit (-25) (-1); Lit 1 (-6); Lit 1 (-7); Lit 30000000000000004 (-17);
       Lit 5 (-324); Lit 2 (-324); Lit 17976931348623157 292; Lit 18 307;
       NaN; Infinity true]
  = ["0.015"; "-2.5"; "0.000001"; "1e-7"; "0.30000000000000004";
     "5e-324"; "0"; "1.7976931348623157e+308"; "Infinity";
     "NaN"; "-Infinity"].
Proof. vm_compute. reflexivity. Qed.

Example stringify_numbers :
  QS.stringify (Some [("price", SFloat (Lit 15 (-3)));
                      ("quantity", SNum 1000000000000000000000)])
  = "price=0.015&quantity=1e%2B21".
Proof. vm_compute. reflexivity. Qed.

Example sha256_abc :
  Crypto.sha256_hex "abc"
  = "ba7816bf8f01cfea414140de5dae2223b00361a396177a9cb410ff61f20015ad".
Proof. vm_compute. reflexivity. Qed.

Example sha256_empty :
  Crypto.sha256_hex ""
  = "e3b0c44298fc1c149afbf4c8996fb92427ae41e4649b934ca495991b7852b855".
Proof. vm_compute. reflexivity. Qed.

Example sha256_two_blocks :
  Crypto.sha256_hex
    "aaaaaaaaaaaaaaaaaaaaaaaaaaaaaaaaaaaaaaaaaaaaaaaaaaaaaaaaaaaaaaaaaaaaaa"
  = "6bd5e5034855a11241f0dee8fc72850ffd9955b28347a86428b5fa19119f6ad0".
Proof. vm_compute. reflexivity. Qed.

Example hmac_rfc4231_case2 :
  Crypto.createHmac_sha256_hex "Jefe" "what do ya want for nothing?"
  = "5bdcc146bf60754e6a042426089575c75a003f089d2739839dec58b964ec3843".
Proof. vm_compute. reflexivity. Qed.

Example hmac_long_key :
  Crypto.createHmac_sha256_hex
    "kkkkkkkkkkkkkkkkkkkkkkkkkkkkkkkkkkkkkkkkkkkkkkkkkkkkkkkkkkkkkkkkkkkkkkkkkkkkkkkk"
    "symbol=BTCUSDT&timestamp=1500000000000"
  = "d8ebb22010940b8edc8616857258aba3f3e051a1b1bd9aa66879fbcf926b1a41".
Proof. vm_compute. reflexivity. Qed.

Example hmac_empty_secret :
  Crypto.createHmac_sha256_hex "" "timestamp=0"
  = "7c94bfe59f2f20625ae961d7e71321729b7197f4bd1df5e8f2b95a7a11708949".
Proof. vm_compute. reflexivity. Qed.


(** ** Property tables: [lookup], [assign], [spread], [remove] *)

(** [{ ...{ b: 1, 2: 'x', a: 2, 1: 'y', b: 3 } }] enumerates as [1, 2, b, a]. *)
Example spread_enumeration_order :
  spread [("b", SNum 1); ("2", SStr "x"); ("a", SNum 2); ("1", SStr "y"); ("b", SNum 3)] []
  = [("1", SStr "y"); ("2", SStr "x"); ("b", SNum 3); ("a", SNum 2)].
Proof. reflexivity. Qed.

Lemma before_asym (a b : string) : before a b = true -> before b a = false.
Proof.
  unfold before. destruct (index_of a) as [i|], (index_of b) as [j|];
    try discriminate; try reflexivity.
  intros H. apply N.ltb_lt in H. apply N.ltb_ge. lia.
Qed.

Lemma before_trans (a b c : string) :
  before a b = true -> before b c = true -> before a c = true.
Proof.
  unfold before.
  destruct (index_of a) as [i|], (index_of b) as [j|], (index_of c) as [l|];
    try discriminate; try reflexivity.
  intros H1 H2. apply N.ltb_lt in H1, H2. apply N.ltb_lt. lia.
Qed.

Lemma ordered_app_before (l1 l2 : list string) (k : string) :
  ordered (l1 ++ k :: l2) -> Forall (fun k' => before k k' = false) l1.
Proof.
  induction l1 as [|k1 l1 IH]; simpl; [constructor|].
  intros [Hall Hord]. constructor; [|now apply IH].
  rewrite Forall_forall in Hall. apply Hall. apply in_or_app. right. now left.
Qed.

Lemma ordered_filter (f : string -> bool) (ks : list string) :
  ordered ks -> ordered (filter f ks).
Proof.
  induction ks as [|k ks IH]; simpl; [tauto|].
  intros [Hall Hord]. destruct (f k); simpl; [split|]; auto.
  rewrite Forall_forall in *. intros x Hx. apply Hall.
  now apply filter_In in Hx as [Hx _].
Qed.

Section PropsFacts.
Context {A : Type}.
Implicit Types (o src dst : props A) (k : string) (v : A).
Local Open Scope list_scope.

Lemma lookup_none_iff k o : lookup k o = None <-> ~ In k (keys o).
Proof.
  induction o as [|[k' v'] rest IH]; simpl.
  - tauto.
  - destruct (String.eqb_spec k k') as [->|Hne].
    + split; [discriminate | intros H; exfalso; apply H; now left].
    + rewrite IH. split.
      * intros H [Heq|Hin]; [congruence | tauto].
      * intros H Hin. apply H. now right.
Qed.

Lemma lookup_some_in k v o : lookup k o = Some v -> In (k, v) o.
Proof.
  induction o as [|[k' v'] rest IH]; simpl; [discriminate|].
  destruct (String.eqb_spec k k') as [->|Hne].
  - intros [= ->]. now left.
  - intros H. right. now apply IH.
Qed.

Lemma in_keys_iff k o : In k (keys o) <-> exists v, lookup k o = Some v.
Proof.
  destruct (lookup k o) as [v|] eqn:E.
  - split; [now exists v|]. intros _.
    apply lookup_some_in in E. apply (in_map fst) in E. exact E.
  - apply lookup_none_iff in E. split; [tauto|]. intros [v Hv]. discriminate.
Qed.

Lemma has_true_iff k o : has k o = true <-> In k (keys o).
Proof.
  unfold has. rewrite in_keys_iff. destruct (lookup k o) as [v|].
  - split; [now exists v | reflexivity].
  - split; [discriminate | intros [v Hv]; discriminate].
Qed.

Lemma lookup_assign_same k v o : lookup k (assign k v o) = Some v.
Proof.
  induction o as [|[k' v'] rest IH]; simpl.
  - now rewrite String.eqb_refl.
  - destruct (String.eqb_spec k k') as [->|Hne]; simpl.
    + now rewrite String.eqb_refl.
    + destruct (before k k' && negb (has k rest)); simpl.
      * now rewrite String.eqb_refl.
      * destruct (String.eqb_spec k k'); [contradiction | exact IH].
Qed.

Lemma lookup_assign_other k k' v o :
  k <> k' -> lookup k (assign k' v o) = lookup k o.
Proof.
  intros Hne. induction o as [|[k0 v0] rest IH]; simpl.
  - destruct (String.eqb_spec k k'); [contradiction | reflexivity].
  - destruct (String.eqb_spec k' k0) as [->|Hne0]; simpl.
    + destruct (String.eqb_spec k k0); [contradiction | reflexivity].
    + destruct (before k' k0 && negb (has k' rest)); simpl.
      * destruct (String.eqb_spec k k'); [contradiction | reflexivity].
      * destruct (String.eqb_spec k k0); [reflexivity | exact IH].
Qed.

Lemma in_keys_assign k k' v o :
  In k (keys (assign k' v o)) <-> k = k' \/ In k (keys o).
Proof.
  rewrite !in_keys_iff. destruct (string_dec k k') as [->|Hne].
  - rewrite lookup_assign_same. split; [now left | intros _; now exists v].
  - rewrite lookup_assign_other by exact Hne.
    split; [now right | intros [H|H]; [contradiction | exact H]].
Qed.

(** A new name that no name of the object has to follow goes last. *)
Lemma assign_absent k v o :
  lookup k o = None -> Forall (fun k' => before k k' = false) (keys o) ->
  assign k v o = o ++ [(k, v)].
Proof.
  induction o as [|[k' v'] rest IH]; simpl; [reflexivity|].
  destruct (String.eqb_spec k k'); [discriminate|].
  intros Hk Hall. inversion Hall as [|? ? Hb Hrest]; subst.
  rewrite Hb. simpl. now rewrite IH.
Qed.

Lemma length_assign k v o :
  length (assign k v o) = if has k o then length o else S (length o).
Proof.
  induction o as [|[k' v'] rest IH]; [reflexivity|].
  assert (Hhas : has k ((k', v') :: rest) = if String.eqb k k' then true else has k rest).
  { unfold has. simpl. now destruct (String.eqb k k'). }
  rewrite Hhas. simpl. destruct (String.eqb k k'); [reflexivity|].
  destruct (has k rest) eqn:E; simpl.
  - rewrite andb_false_r. simpl. now rewrite IH.
  - rewrite andb_true_r. destruct (before k k'); simpl; [reflexivity | now rewrite IH].
Qed.

Lemma spread_cons k v src dst :
  spread ((k, v) :: src) dst = spread src (assign k v dst).
Proof. reflexivity. Qed.

(** A property the source object lacks is left as it was. *)
Lemma lookup_spread_absent k src dst :
  lookup k src = None -> lookup k (spread src dst) = lookup k dst.
Proof.
  revert dst. induction src as [|[k' v'] rest IH]; intros dst; simpl; [reflexivity|].
  destruct (String.eqb_spec k k'); [discriminate|].
  intros H. change (lookup k (spread rest (assign k' v' dst)) = lookup k dst).
  rewrite IH by exact H. now apply lookup_assign_other.
Qed.

(** A property of the source object wins. *)
Lemma lookup_spread_present k v src dst :
  distinct src -> lookup k src = Some v -> lookup k (spread src dst) = Some v.
Proof.
  revert dst. induction src as [|[k' v'] rest IH]; intros dst Hobj; simpl; [discriminate|].
  unfold distinct in Hobj. simpl in Hobj. inversion Hobj as [|? ? Hnotin Hrest]; subst.
  destruct (String.eqb_spec k k') as [->|Hne].
  - intros [= ->]. change (lookup k' (spread rest (assign k' v dst)) = Some v).
    rewrite lookup_spread_absent by (now apply lookup_none_iff).
    apply lookup_assign_same.
  - intros H. change (lookup k (spread rest (assign k' v' dst)) = Some v).
    now apply IH.
Qed.

Lemma in_keys_spread k src dst :
  In k (keys (spread src dst)) <-> In k (keys src) \/ In k (keys dst).
Proof.
  revert dst. induction src as [|[k' v'] rest IH]; intros dst.
  - simpl. tauto.
  - rewrite spread_cons, IH, in_keys_assign. simpl. intuition congruence.
Qed.

(** Spreading an object into a fresh literal copies it. *)
Lemma spread_append src dst : object (dst ++ src) -> spread src dst = dst ++ src.
Proof.
  revert dst. induction src as [|[k v] rest IH]; intros dst [Hnd Hord].
  - simpl. now rewrite app_nil_r.
  - rewrite spread_cons. unfold distinct, keys in *. rewrite map_app in *. simpl in *.
    assert (Hk : lookup k dst = None).
    { apply lookup_none_iff. apply NoDup_remove_2 in Hnd.
      intros Hin. apply Hnd. apply in_or_app. now left. }
    rewrite (assign_absent _ _ _ Hk (ordered_app_before _ _ _ Hord)).
    rewrite IH; rewrite <- app_assoc; [reflexivity|].
    split; unfold distinct, keys; rewrite map_app; assumption.
Qed.

Lemma spread_fresh o : object o -> spread o [] = o.
Proof. intros H. now rewrite spread_append. Qed.

Lemma lookup_remove k k' o :
  lookup k (remove k' o) = if String.eqb k' k then None else lookup k o.
Proof.
  induction o as [|[k0 v0] rest IH]; simpl.
  - now destruct (String.eqb k' k).
  - destruct (String.eqb_spec k' k0) as [->|Hne]; simpl.
    + rewrite IH. destruct (String.eqb_spec k0 k) as [->|Hne'].
      * reflexivity.
      * destruct (String.eqb_spec k k0); [congruence | reflexivity].
    + destruct (String.eqb_spec k k0) as [->|Hne'].
      * destruct (String.eqb_spec k' k0); [contradiction | reflexivity].
      * exact IH.
Qed.

Lemma keys_remove k o :
  keys (remove k o) = filter (fun k' => negb (String.eqb k k')) (keys o).
Proof.
  unfold keys, remove. induction o as [|[k0 v0] rest IH]; simpl; [reflexivity|].
  destruct (negb (k =? k0)%string); simpl; now rewrite IH.
Qed.

Lemma object_remove k o : object o -> object (remove k o).
Proof.
  intros [Hnd Hord]. unfold object, distinct. rewrite keys_remove.
  split; [now apply NoDup_filter | now apply ordered_filter].
Qed.

Lemma length_remove k v o :
  distinct o -> lookup k o = Some v -> length o = S (length (remove k o)).
Proof.
  unfold distinct, keys, remove. induction o as [|[k0 v0] rest IH]; simpl; intros H; [discriminate|].
  inversion H as [|? ? Hnotin Hrest]; subst.
  destruct (String.eqb_spec k k0) as [->|Hne]; simpl.
  - intros _. f_equal.
    assert (Hall : forall kv, In kv rest -> negb (k0 =? fst kv)%string = true).
    { intros [k1 v1] Hin. simpl. destruct (String.eqb_spec k0 k1) as [->|]; [|reflexivity].
      exfalso. apply Hnotin. now apply (in_map fst) in Hin. }
    clear -Hall. induction rest as [|kv rest IH]; simpl; [reflexivity|].
    rewrite Hall by now left. simpl. f_equal. apply IH. intros kv' Hin. apply Hall. now right.
  - intros Hl. f_equal. now apply IH.
Qed.

Lemma object_nil : object (@nil (string * A)).
Proof. split; constructor. Qed.

Lemma distinct_assign k v o : distinct o -> distinct (assign k v o).
Proof.
  unfold distinct. induction o as [|[k' v'] rest IH]; simpl; intros H.
  - constructor; [tauto | constructor].
  - inversion H as [|? ? Hnotin Hrest]; subst.
    destruct (String.eqb_spec k k') as [->|Hne]; simpl.
    + now constructor.
    + destruct (before k k' && negb (has k rest)) eqn:E; simpl.
      * apply andb_prop in E as [_ E]. apply negb_true_iff in E.
        constructor; [|exact H].
        intros [Heq|Hin]; [congruence|].
        apply has_true_iff in Hin. fold (keys rest) in Hin. congruence.
      * constructor; [|now apply IH].
        intros Hin. apply (in_keys_assign k' k v rest) in Hin as [Heq|Hin];
          [congruence | contradiction].
Qed.

Lemma ordered_assign k v o : ordered (keys o) -> ordered (keys (assign k v o)).
Proof.
  induction o as [|[k' v'] rest IH]; simpl.
  - intros _. split; [constructor | exact I].
  - intros [Hall Hord].
    destruct (String.eqb_spec k k') as [->|Hne]; simpl; [now split|].
    destruct (before k k' && negb (has k rest)) eqn:E; simpl.
    + apply andb_prop in E as [Hb _]. split; [|now split].
      constructor; [now apply before_asym|].
      rewrite Forall_forall in *. intros x Hx.
      destruct (before x k) eqn:Hxk; [|reflexivity].
      rewrite <- (Hall x Hx). symmetry. now apply before_trans with k.
    + split; [|now apply IH].
      rewrite Forall_forall in *. intros x Hx.
      apply (in_keys_assign x k v rest) in Hx as [->|Hx]; [|now apply Hall].
      apply andb_false_iff in E as [E|E]; [exact E|].
      apply negb_false_iff, has_true_iff in E. now apply Hall.
Qed.

Lemma object_assign k v o : object o -> object (assign k v o).
Proof.
  intros [Hnd Hord]. split; [now apply distinct_assign | now apply ordered_assign].
Qed.

Lemma object_spread src dst : object dst -> object (spread src dst).
Proof.
  revert dst. induction src as [|[k v] rest IH]; intros dst H; [exact H|].
  rewrite spread_cons. apply IH. now apply object_assign.
Qed.
End PropsFacts.

(** Settles [object o] for a literal [o]. *)
Ltac literal_object :=
  split; [repeat constructor; simpl; intuition discriminate
         | simpl; repeat (split || constructor)].

(** ** The signer *)

Lemma V1_signedBody_object (t : Z) (postData : option IPostBody) :
  object (assign "timestamp" (SNum t) (spread (own postData) [])).
Proof. apply object_assign, object_spread, object_nil. Qed.

Lemma V2_signedBody_object (t : Z) (postData : option IPostBody) :
  object (assign "recvWindow" (SNum V2.recvWindow)
            (assign "timestamp" (SNum t) (spread (own postData) []))).
Proof. do 2 apply object_assign. apply object_spread, object_nil. Qed.

Lemma V1_body_eq w postData S :
  body (V1.signMessage w postData S)
  = assign "signature" (SStr (digest (V1.signMessage w postData S)))
      (assign "timestamp" (SNum (Date_now w)) (spread (own postData) [])).
Proof.
  unfold V1.signMessage. cbn [body digest].
  now rewrite (spread_fresh _ (V1_signedBody_object _ _)).
Qed.

Lemma V2_body_eq w postData S :
  body (V2.signMessage w postData S)
  = assign "signature" (SStr (digest (V2.signMessage w postData S)))
      (assign "recvWindow" (SNum 5000)
         (assign "timestamp" (SNum (Date_now w)) (spread (own postData) []))).
Proof.
  unfold V2.signMessage. cbn [body digest].
  now rewrite (spread_fresh _ (V2_signedBody_object _ _)).
Qed.

(** C1 (as amended): for every body and secret, the returned body has
    every key of the caller's body; every key other than [timestamp],
    [signature] (and [recvWindow] in the later version) keeps the caller's
    value; [timestamp] holds the clock reading, [recvWindow] holds 5000,
    [signature] holds the digest; and the body has no other key. *)
Theorem signMessage_body_fields (w : World) (postData : option IPostBody) (S : string) :
  object (own postData) ->
  (signed_fields ["timestamp"; "signature"] postData (V1.signMessage w postData S)
   /\ lookup "timestamp" (body (V1.signMessage w postData S)) = Some (SNum (Date_now w)))
  /\
  (signed_fields ["timestamp"; "recvWindow"; "signature"] postData
                 (V2.signMessage w postData S)
   /\ lookup "timestamp" (body (V2.signMessage w postData S)) = Some (SNum (Date_now w))
   /\ lookup "recvWindow" (body (V2.signMessage w postData S)) = Some (SNum 5000)).
Proof.
  intros [Hobj _]. unfold signed_fields. rewrite V1_body_eq, V2_body_eq.
  repeat split.
  - intros k Hin. rewrite !in_keys_assign, in_keys_spread. tauto.
  - intros k v Hk Hres.
    rewrite !lookup_assign_other by (intros ->; apply Hres; simpl; tauto).
    now apply lookup_spread_present.
  - intros k. rewrite !in_keys_assign, in_keys_spread. simpl. intuition.
  - apply lookup_assign_same.
  - rewrite lookup_assign_other by discriminate. apply lookup_assign_same.
  - intros k Hin. rewrite !in_keys_assign, in_keys_spread. tauto.
  - intros k v Hk Hres.
    rewrite !lookup_assign_other by (intros ->; apply Hres; simpl; tauto).
    now apply lookup_spread_present.
  - intros k. rewrite !in_keys_assign, in_keys_spread. simpl. intuition.
  - apply lookup_assign_same.
  - rewrite !lookup_assign_other by discriminate. apply lookup_assign_same.
  - rewrite lookup_assign_other by discriminate. apply lookup_assign_same.
Qed.

Lemma signMessage_body_fields_witness :
  object (own (Some [("symbol", SStr "BTCUSDT")]))
  /\ lookup "symbol" (body (V1.signMessage (answering 1500000000000)
                                            (Some [("symbol", SStr "BTCUSDT")]) "sk2"))
     = Some (SStr "BTCUSDT")
  /\ lookup "recvWindow" (body (V2.signMessage (answering 1500000000000)
                                                (Some [("symbol", SStr "BTCUSDT")]) "sk2"))
     = Some (SNum 5000).
Proof.
  assert (Hobj : object (own (Some [("symbol", SStr "BTCUSDT")]))) by literal_object.
  pose proof (signMessage_body_fields (answering 1500000000000)
                (Some [("symbol", SStr "BTCUSDT")]) "sk2" Hobj) as [[H1 _] [_ [_ H2]]].
  split; [exact Hobj|]. split; [|exact H2].
  destruct H1 as [_ [Hkeep _]]. apply Hkeep; [reflexivity|].
  simpl. intros [H|[H|[]]]; discriminate.
Defined.

(** C1 as stated fails on a body that already has a [timestamp]: the
    caller's value is replaced by the clock reading, in both versions. *)
Lemma signMessage_replaces_caller_timestamp :
  lookup "timestamp" [("timestamp", SNum 1)] = Some (SNum 1)
  /\ lookup "timestamp" (body (V1.signMessage (answering 1500000000000)
                                 (Some [("timestamp", SNum 1)]) "sk2"))
     = Some (SNum 1500000000000)
  /\ lookup "timestamp" (body (V2.signMessage (answering 1500000000000)
                                 (Some [("timestamp", SNum 1)]) "sk2"))
     = Some (SNum 1500000000000)
  /\ ~ (forall (w : World) (B : IPostBody) (S k : string) (v : scalar),
           object B -> lookup k B = Some v ->
           lookup k (body (V1.signMessage w (Some B) S)) = Some v).
Proof.
  split; [reflexivity|]. split; [vm_compute; reflexivity|].
  split; [vm_compute; reflexivity|].
  intros H.
  specialize (H (answering 1500000000000) [("timestamp", SNum 1)] "sk2" "timestamp" (SNum 1)).
  assert (Hobj : object [("timestamp", SNum 1)]) by literal_object.
  specialize (H Hobj eq_refl). vm_compute in H. discriminate.
Qed.





(** The digest of a sample call, checked against an independent
    HMAC-SHA256 of [symbol=BTCUSDT&timestamp=1500000000000] under [sk2]. *)
Example signMessage_digest_value :
  digest (V1.signMessage (answering 1500000000000) (Some [("symbol", SStr "BTCUSDT")]) "sk2")
  = "0f8080722461acfcba6aeb1c5f40b37a96e39a48535ea73987c266de6ecf2b68".
Proof. vm_compute. reflexivity. Qed.

(** ** Credentials *)

Lemma isUpgraded_truthy_iff (this : IRawAgent) :
  (truthy (V1.isUpgraded this) = true <-> exists a, auth this = Some a)
  /\ (truthy (V2.isUpgraded this) = true <-> exists a, auth this = Some a).
Proof.
  unfold V1.isUpgraded, V2.isUpgraded. destruct (auth this) as [a|]; simpl.
  - split; (split; [intros _; now exists a | reflexivity]).
  - split; (split; [discriminate | intros [a Ha]; discriminate]).
Qed.

(** C7 (the code at its failing input): [isUpgraded()] hands back
    [this.auth] itself. On an agent holding keys the result is the key pair
    object, not [true]; on an agent without keys it is [undefined], not
    [false]. Only its truthiness tells whether keys are stored. *)
Theorem isUpgraded_returns_auth (a : IApiAuth) :
  (V1.isUpgraded (V1.getRawAgent (Some a))
   = Obj [("publicKey", Str (publicKey a)); ("privateKey", Str (privateKey a))]
   /\ V1.isUpgraded (V1.getRawAgent (Some a)) <> Bool true
   /\ V1.isUpgraded (V1.getRawAgent None) = Undefined)
  /\
  (V2.isUpgraded (V2.getRawAgent (Some a))
   = Obj [("publicKey", Str (publicKey a)); ("privateKey", Str (privateKey a))]
   /\ V2.isUpgraded (V2.getRawAgent (Some a)) <> Bool true
   /\ V2.isUpgraded (V2.getRawAgent None) = Undefined).
Proof. repeat split; discriminate. Qed.

(** C2: on an agent with no keys, [privateRequest] rejects with the
    keys-required message whatever the endpoint, method, body and override,
    and leaves the world as it was: nothing reaches the transport. *)
Theorem privateRequest_requires_keys
        (this : IRawAgent) (endpoint method : string) (params : option IPostBody)
        (configOverride : option (props value)) (w : World) :
  auth this = None ->
  (V1.privateRequest this endpoint method params configOverride w
   = (Rejected (Raised keys_required), w)
   /\ wire (snd (V1.privateRequest this endpoint method params configOverride w)) = wire w)
  /\
  (V2.privateRequest this endpoint method params configOverride w
   = (Rejected (Raised keys_required), w)
   /\ wire (snd (V2.privateRequest this endpoint method params configOverride w)) = wire w).
Proof.
  intros Hauth. unfold V1.privateRequest, V2.privateRequest, V1.isUpgraded, V2.isUpgraded.
  rewrite Hauth. repeat split.
Qed.

Lemma privateRequest_requires_keys_witness :
  auth (V1.getRawAgent None) = None
  /\ V1.privateRequest (V1.getRawAgent None) "api/v3/order" "POST"
       (Some [("symbol", SStr "BTCUSDT")]) (Some [("timeout", Num 10)])
       (answering 1500000000000)
     = (Rejected (Raised (Str "api keys are required to access private endpoints")),
        answering 1500000000000)
  /\ wire (snd (V2.privateRequest (V1.getRawAgent None) "api/v3/order" "POST"
                  (Some [("symbol", SStr "BTCUSDT")]) (Some [("timeout", Num 10)])
                  (answering 1500000000000))) = [].
Proof.
  pose proof (privateRequest_requires_keys (V1.getRawAgent None) "api/v3/order" "POST"
                (Some [("symbol", SStr "BTCUSDT")]) (Some [("timeout", Num 10)])
                (answering 1500000000000) eq_refl) as [[H1 _] [_ H2]].
  split; [reflexivity|]. split; [exact H1 | exact H2].
Defined.

(** ** Error normalisation *)

Lemma rejectionReason_error_field (err response data error : value) :
  get err "response" = Normal response ->
  get response "data" = Normal data ->
  get data "error" = Normal error ->
  truthy error = true ->
  rejectionReason err = Normal error.
Proof.
  intros Hr Hd He Ht. unfold rejectionReason. rewrite Hr. simpl. rewrite Hd. simpl.
  rewrite He. simpl. unfold js_or. now rewrite Ht, Ht, Ht.
Qed.

Lemma rejectionReason_data (err response data error : value) :
  get err "response" = Normal response ->
  get response "data" = Normal data ->
  get data "error" = Normal error ->
  truthy error = false -> truthy data = true ->
  rejectionReason err = Normal data.
Proof.
  intros Hr Hd He Ht Htd. unfold rejectionReason. rewrite Hr. simpl. rewrite Hd. simpl.
  rewrite He. simpl. unfold js_or. now rewrite Ht, Htd, Htd.
Qed.

(** Reading [.data] of a missing response throws before any fallback. *)
Lemma rejectionReason_no_response (err : value) :
  get err "response" = Normal Undefined ->
  rejectionReason err = Throw (TypeError "data").
Proof. intros Hr. unfold rejectionReason. now rewrite Hr. Qed.

(** Reading [.error] of a missing payload throws as well. *)
Lemma rejectionReason_no_data (err response : value) :
  get err "response" = Normal response ->
  get response "data" = Normal Undefined ->
  rejectionReason err = Throw (TypeError "error").
Proof. intros Hr Hd. unfold rejectionReason. rewrite Hr. simpl. now rewrite Hd. Qed.

Example rejects_with_error_field :
  fst (V1.privateRequest (V1.getRawAgent (Some pk2sk2)) "api/v3/order" "POST" None None
         (failing 0 (Obj [("response",
                           Obj [("data", Obj [("error", Str "INSUFFICIENT_FUNDS")])])])))
  = Rejected (Raised (Str "INSUFFICIENT_FUNDS")).
Proof. reflexivity. Qed.

Example rejects_with_payload :
  fst (V2.privateRequest (V2.getRawAgent (Some pk2sk2)) "api/v3/order" "POST" None None
         (failing 0 (Obj [("response", Obj [("data", Obj [("code", Num (-1))])])])))
  = Rejected (Raised (Obj [("code", Num (-1))])).
Proof. reflexivity. Qed.

(** C3 (the code at its failing input): when the transport fails with a
    bare exception, an error object with a [message] and no [response], the
    [catch] block reads [err.response.data] and throws; the promise rejects
    with that [TypeError], not with the exception, for every keyed agent,
    endpoint, method, body and override, in both versions. *)
Theorem bare_exception_rejects_with_TypeError
        (a : IApiAuth) (endpoint method : string) (params : option IPostBody)
        (configOverride : option (props value)) (t : Z) (message : string) :
  fst (V1.privateRequest (V1.getRawAgent (Some a)) endpoint method params configOverride
         (failing t (Obj [("message", Str message)])))
  = Rejected (TypeError "data")
  /\
  fst (V2.privateRequest (V2.getRawAgent (Some a)) endpoint method params configOverride
         (failing t (Obj [("message", Str message)])))
  = Rejected (TypeError "data")
  /\
  Rejected (TypeError "data") <> Rejected (Raised (Obj [("message", Str message)])).
Proof. repeat split; discriminate. Qed.

(** The same slip one level down: a response without [data]. *)
Example response_without_data_rejects_with_TypeError :
  fst (V1.privateRequest (V1.getRawAgent (Some pk2sk2)) "api/v3/order" "POST" None None
         (failing 0 (Obj [("response", Obj [("status", Num 502)])])))
  = Rejected (TypeError "error").
Proof. reflexivity. Qed.

(** ** Request descriptors *)

(** A field that neither the caller's override nor the process defaults
    set keeps the value computed for the call. *)
Lemma lookup_layered (k : string) (configOverride : option (props value))
      (defaults base : props value) :
  lookup k (own configOverride) = None -> lookup k defaults = None ->
  lookup k (spread (spread (own configOverride) (spread defaults [])) base) = lookup k base.
Proof.
  intros Hov Hdef. apply lookup_spread_absent.
  rewrite lookup_spread_absent by exact Hov.
  now rewrite lookup_spread_absent by exact Hdef.
Qed.

(** A field the caller's override sets replaces the value computed for the
    call: the merged configuration is spread last. *)
Lemma lookup_overridden (k : string) (v : value) (ov defaults base : props value) :
  distinct ov -> lookup k ov = Some v ->
  lookup k (spread (spread ov (spread defaults [])) base) = Some v.
Proof.
  intros Hobj Hk. apply lookup_spread_present.
  - apply (proj1 (object_spread _ _ (object_spread _ _ object_nil))).
  - now apply lookup_spread_present.
Qed.

Lemma field_config_absent (k : string) (configOverride : option (props value))
      (defaults : props value) :
  lookup k (own configOverride) = None -> lookup k defaults = None ->
  field k (spread (own configOverride) (spread defaults [])) = Undefined.
Proof.
  intros Hov Hdef. unfold field.
  rewrite lookup_spread_absent by exact Hov.
  now rewrite lookup_spread_absent by exact Hdef.
Qed.

Lemma append_empty_r (s : string) : (s ++ "")%string = s.
Proof. induction s as [|c s IH]; simpl; [reflexivity | now rewrite IH]. Qed.

(** What reaches the wire when an [async] body awaits [axios] once. *)
Lemma wire_after_axios (agentConfig : descriptor) (w : World)
      (resolve reject : value -> promise) :
  wire (snd (match axios agentConfig w with
             | (Fulfilled response, w') => (resolve response, w')
             | (Failed err, w') => (reject err, w')
             end)) = (wire w ++ [agentConfig])%list.
Proof. unfold axios. now destruct (network w agentConfig). Qed.

(** Opens a call of [privateRequest] on an agent whose [auth] is given by
    [Hauth], and names the descriptor handed to [axios]. *)
Ltac open_private Hauth :=
  unfold V1.privateRequest, V2.privateRequest, V1.isUpgraded, V2.isUpgraded;
  rewrite Hauth; cbn [truthy value_of_auth negb]; cbv zeta;
  eexists; (split; [apply wire_after_axios|]).

Ltac open_public :=
  unfold V1.publicRequest, V2.publicRequest; cbv zeta;
  eexists; (split; [apply wire_after_axios|]).

(** C9: [publicRequest] hands the transport one descriptor whose method is
    [GET], that has no [data], and whose [url] is ['/' + endpoint + '?'] followed
    by the serialised query parameters, for every agent (keys or not),
    endpoint and parameters, on a call whose override (if any) leaves
    [method], [url] and [data] alone; with the parameters absent or empty the
    [url] ends in the bare ['?']. Both versions. *)
Theorem publicRequest_descriptor
        (this : IRawAgent) (endpoint : string) (queryParams : option IPostBody)
        (configOverride : option (props value)) (w : World) :
  sets_none_of ["method"; "url"; "data"] configOverride ->
  (exists d,
      wire (snd (V1.publicRequest this endpoint queryParams configOverride w)) = (wire w ++ [d])%list
      /\ lookup "method" d = Some (Str "GET")
      /\ lookup "data" d = None
      /\ lookup "url" d = Some (Str ("/" ++ endpoint ++ "?" ++ QS.stringify queryParams))
      /\ (own queryParams = [] -> lookup "url" d = Some (Str ("/" ++ endpoint ++ "?"))))
  /\
  (exists d,
      wire (snd (V2.publicRequest this endpoint queryParams configOverride w)) = (wire w ++ [d])%list
      /\ lookup "method" d = Some (Str "GET")
      /\ lookup "data" d = None
      /\ lookup "url" d = Some (Str ("/" ++ endpoint ++ "?" ++ QS.stringify queryParams))
      /\ (own queryParams = [] -> lookup "url" d = Some (Str ("/" ++ endpoint ++ "?")))).
Proof.
  intros Hov.
  assert (Hm : lookup "method" (own configOverride) = None) by (apply Hov; simpl; tauto).
  assert (Hu : lookup "url" (own configOverride) = None) by (apply Hov; simpl; tauto).
  assert (Hd : lookup "data" (own configOverride) = None) by (apply Hov; simpl; tauto).
  assert (Hempty : own queryParams = [] -> QS.stringify queryParams = "").
  { unfold QS.stringify. now intros ->. }
  split; open_public;
    (repeat split;
     [ now rewrite lookup_layered
     | now rewrite lookup_layered
     | now rewrite lookup_layered
     | intros He; rewrite lookup_layered by (exact Hu || reflexivity);
       rewrite (Hempty He), append_empty_r; reflexivity ]).
Qed.

(** [ping()] of the client: no parameters, a bare ['?']. *)
Example ping_url :
  exists d,
    wire (snd (V2.publicRequest (V2.getRawAgent None) "api/v1/ping" None None (answering 0)))
    = [d]
    /\ lookup "url" d = Some (Str "/api/v1/ping?")
    /\ lookup "method" d = Some (Str "GET").
Proof. eexists. repeat split. Qed.

Lemma publicRequest_descriptor_witness :
  sets_none_of ["method"; "url"; "data"] None
  /\ exists d,
      wire (snd (V1.publicRequest (V1.getRawAgent None) "ticker"
                   (Some [("symbol", SStr "BTCUSDT")]) None (answering 0))) = [d]
      /\ lookup "method" d = Some (Str "GET")
      /\ lookup "data" d = None
      /\ lookup "url" d = Some (Str "/ticker?symbol=BTCUSDT").
Proof.
  assert (H : sets_none_of ["method"; "url"; "data"] None) by (intros k _; reflexivity).
  split; [exact H|].
  destruct (publicRequest_descriptor (V1.getRawAgent None) "ticker"
              (Some [("symbol", SStr "BTCUSDT")]) None (answering 0) H)
    as [[d [Hwire [Hmethod [Hdata [Hurl _]]]]] _].
  exists d. repeat split; assumption.
Defined.

(** Without a [headers] override the descriptor carries the base headers
    and the key header, whatever else the override sets ([method] included). *)
Lemma privateRequest_default_headers
      (this : IRawAgent) (a : IApiAuth) (endpoint method : string)
      (params : option IPostBody) (configOverride : option (props value)) (w : World) :
  auth this = Some a ->
  sets_none_of ["headers"] configOverride ->
  (exists d,
      wire (snd (V1.privateRequest this endpoint method params configOverride w))
      = (wire w ++ [d])%list
      /\ header "X-MBX-APIKEY" d = Some (Str (publicKey a))
      /\ header "Cache-Control" d = Some (Str "no-cache")
      /\ header "Content-Type" d = Some (Str "text/plain"))
  /\
  (exists d,
      wire (snd (V2.privateRequest this endpoint method params configOverride w))
      = (wire w ++ [d])%list
      /\ header "X-MBX-APIKEY" d = Some (Str (publicKey a))
      /\ header "Cache-Control" d = Some (Str "no-cache")
      /\ header "Content-Type" d = Some (Str "application/x-www-form-urlencoded")).
Proof.
  intros Hauth Hov.
  assert (Hh : lookup "headers" (own configOverride) = None) by (apply Hov; simpl; tauto).
  split; open_private Hauth;
    rewrite field_config_absent by (exact Hh || reflexivity);
    unfold header, field;
    rewrite !lookup_layered by (exact Hh || reflexivity);
    repeat split.
Qed.

(** C4 (the code at its failing input): a call-level override that
    supplies [headers] ends up as the descriptor's [headers] by itself. The
    merged headers are computed, and then the merged configuration, which
    still holds the override's own [headers], is spread over them. With
    [headers: {"X-Test": "1"}] the descriptor has [X-Test] and neither the
    base headers nor [X-MBX-APIKEY]. Both versions, every keyed agent,
    endpoint, method and body. *)
Theorem headers_override_replaces_merged_headers
        (a : IApiAuth) (endpoint method : string) (params : option IPostBody)
        (hs : props value) (w : World) :
  (exists d,
      wire (snd (V1.privateRequest (V1.getRawAgent (Some a)) endpoint method params
                   (Some [("headers", Obj hs)]) w)) = (wire w ++ [d])%list
      /\ lookup "headers" d = Some (Obj hs)
      /\ forall name, header name d = lookup name hs)
  /\
  (exists d,
      wire (snd (V2.privateRequest (V2.getRawAgent (Some a)) endpoint method params
                   (Some [("headers", Obj hs)]) w)) = (wire w ++ [d])%list
      /\ lookup "headers" d = Some (Obj hs)
      /\ forall name, header name d = lookup name hs).
Proof.
  assert (Hauth1 : auth (V1.getRawAgent (Some a)) = Some a) by reflexivity.
  assert (Hauth2 : auth (V2.getRawAgent (Some a)) = Some a) by reflexivity.
  assert (Hobj : distinct [("headers", Obj hs)]) by (repeat constructor; simpl; tauto).
  split; [open_private Hauth1 | open_private Hauth2];
    unfold header, field; cbn [own];
    rewrite (lookup_overridden "headers" (Obj hs)) by (exact Hobj || reflexivity);
    split; reflexivity.
Qed.

Example X_Test_override_loses_key_header :
  exists d,
    wire (snd (V1.privateRequest (V1.getRawAgent (Some pk2sk2)) "api/v3/account" "GET" None
                 (Some [("headers", Obj [("X-Test", Str "1")])]) (answering 0))) = [d]
    /\ header "X-Test" d = Some (Str "1")
    /\ header "X-MBX-APIKEY" d = None
    /\ header "Cache-Control" d = None
    /\ header "User-Agent" d = None.
Proof. eexists. split; [reflexivity|]. repeat split. Qed.

(** C6 as stated fails on the later version: a [POST] puts the signed data
    in the query string and sets no [data] at all. *)
Lemma later_version_POST_data_in_query :
  exists d,
    wire (snd (V2.privateRequest (V2.getRawAgent (Some pk2sk2)) "api/v3/order" "POST"
                 (Some [("symbol", SStr "BTCUSDT")]) None (answering 1500000000000))) = [d]
    /\ lookup "method" d = Some (Str "POST")
    /\ lookup "data" d = None
    /\ lookup "url" d
       = Some (Str ("/api/v3/order?symbol=BTCUSDT&timestamp=1500000000000&recvWindow=5000"
                    ++ "&signature=cd218cfa3a59cf36b07f998a92c3f77f43242de4619e5aa7a7f6c0d2ff9699b5"))
    /\ ~ in_body (body (V2.signMessage (answering 1500000000000)
                          (Some [("symbol", SStr "BTCUSDT")]) "sk2")) d.
Proof.
  eexists. split; [reflexivity|]. split; [reflexivity|]. split; [reflexivity|].
  split; [vm_compute; reflexivity|].
  unfold in_body. intros H. vm_compute in H. discriminate.
Qed.

(** C6 (as amended): on a call whose override leaves [url] and [data]
    alone, the first version puts the signed data in the query string and a
    [null] body for [GET], and in the body, with the bare path as [url], for
    every other verb; the later version puts the signed data in the query
    string for every verb and sets no [data]. *)
Theorem privateRequest_data_placement
        (this : IRawAgent) (a : IApiAuth) (endpoint method : string)
        (params : option IPostBody) (configOverride : option (props value)) (w : World) :
  auth this = Some a ->
  sets_none_of ["url"; "data"] configOverride ->
  (exists d,
      wire (snd (V1.privateRequest this endpoint method params configOverride w))
      = (wire w ++ [d])%list
      /\ (method = "GET" ->
          in_query endpoint (body (V1.signMessage w params (privateKey a))) d
          /\ lookup "data" d = Some Null)
      /\ (method <> "GET" ->
          lookup "url" d = Some (Str ("/" ++ endpoint))
          /\ in_body (body (V1.signMessage w params (privateKey a))) d))
  /\
  (exists d,
      wire (snd (V2.privateRequest this endpoint method params configOverride w))
      = (wire w ++ [d])%list
      /\ in_query endpoint (body (V2.signMessage w params (privateKey a))) d
      /\ lookup "data" d = None).
Proof.
  intros Hauth Hov.
  assert (Hu : lookup "url" (own configOverride) = None) by (apply Hov; simpl; tauto).
  assert (Hd : lookup "data" (own configOverride) = None) by (apply Hov; simpl; tauto).
  split; open_private Hauth; unfold in_query, in_body.
  - split.
    + intros ->. cbn [String.eqb Ascii.eqb Bool.eqb].
      split; rewrite lookup_layered by (assumption || reflexivity); reflexivity.
    + intros Hne. apply String.eqb_neq in Hne. rewrite Hne.
      split; rewrite lookup_layered by (assumption || reflexivity); reflexivity.
  - split; rewrite lookup_layered by (assumption || reflexivity); reflexivity.
Qed.

Lemma privateRequest_data_placement_witness :
  auth (V1.getRawAgent (Some pk2sk2)) = Some pk2sk2
  /\ sets_none_of ["url"; "data"] (Some [("timeout", Num 10)])
  /\ "DELETE" <> "GET"
  /\ exists d,
      wire (snd (V1.privateRequest (V1.getRawAgent (Some pk2sk2)) "api/v3/order" "DELETE"
                   (Some [("symbol", SStr "BTCUSDT")]) (Some [("timeout", Num 10)])
                   (answering 1500000000000))) = [d]
      /\ lookup "url" d = Some (Str "/api/v3/order")
      /\ in_body (body (V1.signMessage (answering 1500000000000)
                          (Some [("symbol", SStr "BTCUSDT")]) "sk2")) d.
Proof.
  assert (Hov : sets_none_of ["url"; "data"] (Some [("timeout", Num 10)])).
  { intros k [<-|[<-|[]]]; reflexivity. }
  assert (Hne : "DELETE" <> "GET") by discriminate.
  split; [reflexivity|]. split; [exact Hov|]. split; [exact Hne|].
  destruct (privateRequest_data_placement (V1.getRawAgent (Some pk2sk2)) pk2sk2
              "api/v3/order" "DELETE" (Some [("symbol", SStr "BTCUSDT")])
              (Some [("timeout", Num 10)]) (answering 1500000000000) eq_refl Hov)
    as [[d [Hwire [_ Hother]]] _].
  exists d. split; [exact Hwire|]. exact (Hother Hne).
Defined.

(** ** Credential lifecycle *)

(** Requests and the passing of time leave the stored keys alone. *)
Lemma run_keeps_auth (cs : list call) (this : IRawAgent) (w : World) :
  forallb not_upgrade cs = true ->
  fst (V1.run cs (this, w)) = this /\ fst (V2.run cs (this, w)) = this.
Proof.
  intros Hcs. unfold V1.run, V2.run. split; revert w;
    (induction cs as [|c cs IH]; intros w; [reflexivity|];
     simpl in Hcs; apply andb_prop in Hcs as [Hc Hcs];
     destruct c; try discriminate; simpl; apply IH; exact Hcs).
Qed.

(** C5 as stated fails when the call's override carries its own
    [X-MBX-APIKEY]: after [upgrade] to the pair [pk2]/[sk2] the descriptor's
    key header is the override's value, in both versions. *)
Lemma key_header_follows_override :
  (exists d,
      wire (snd (V1.privateRequest (V1.upgrade pk2sk2 (V1.getRawAgent None))
                   "api/v3/account" "GET" None
                   (Some [("headers", Obj [("X-MBX-APIKEY", Str "someone-else")])])
                   (answering 0))) = [d]
      /\ header "X-MBX-APIKEY" d = Some (Str "someone-else")
      /\ header "X-MBX-APIKEY" d <> Some (Str (publicKey pk2sk2)))
  /\
  (exists d,
      wire (snd (V2.privateRequest (V2.upgrade pk2sk2 (V2.getRawAgent None))
                   "api/v3/account" "GET" None
                   (Some [("headers", Obj [("X-MBX-APIKEY", Str "someone-else")])])
                   (answering 0))) = [d]
      /\ header "X-MBX-APIKEY" d = Some (Str "someone-else")
      /\ header "X-MBX-APIKEY" d <> Some (Str (publicKey pk2sk2))).
Proof.
  split; (eexists; split; [reflexivity|]; split; [reflexivity | discriminate]).
Qed.

(** C5 (as amended): [upgrade(newAuth)] stores [newAuth] whatever the
    agent held and whatever the two strings are. From then on, through any
    sequence of requests and waits that contains no further [upgrade], the
    agent still holds [newAuth], and a private call made at that point hands
    the transport one descriptor that
    - has [X-MBX-APIKEY] equal to the new public key when the call's override
      sets no [headers], and
    - carries the body signed under the new private key (in the query string
      or in [data]) when the call's override sets neither [url] nor [data].
    Both versions. *)
Theorem upgrade_installs_credentials
        (newAuth : IApiAuth) (this : IRawAgent) (cs : list call)
        (endpoint method : string) (params : option IPostBody)
        (configOverride : option (props value)) (w : World) :
  forallb not_upgrade cs = true ->
  (auth (V1.upgrade newAuth this) = Some newAuth
   /\ auth (fst (V1.run cs (V1.upgrade newAuth this, w))) = Some newAuth
   /\ exists d,
       let this' := fst (V1.run cs (V1.upgrade newAuth this, w)) in
       let w' := snd (V1.run cs (V1.upgrade newAuth this, w)) in
       wire (snd (V1.privateRequest this' endpoint method params configOverride w'))
       = (wire w' ++ [d])%list
       /\ (sets_none_of ["headers"] configOverride ->
           header "X-MBX-APIKEY" d = Some (Str (publicKey newAuth)))
       /\ (sets_none_of ["url"; "data"] configOverride ->
           in_query endpoint (body (V1.signMessage w' params (privateKey newAuth))) d
           \/ in_body (body (V1.signMessage w' params (privateKey newAuth))) d))
  /\
  (auth (V2.upgrade newAuth this) = Some newAuth
   /\ auth (fst (V2.run cs (V2.upgrade newAuth this, w))) = Some newAuth
   /\ exists d,
       let this' := fst (V2.run cs (V2.upgrade newAuth this, w)) in
       let w' := snd (V2.run cs (V2.upgrade newAuth this, w)) in
       wire (snd (V2.privateRequest this' endpoint method params configOverride w'))
       = (wire w' ++ [d])%list
       /\ (sets_none_of ["headers"] configOverride ->
           header "X-MBX-APIKEY" d = Some (Str (publicKey newAuth)))
       /\ (sets_none_of ["url"; "data"] configOverride ->
           in_query endpoint (body (V2.signMessage w' params (privateKey newAuth))) d)).
Proof.
  intros Hcs.
  destruct (run_keeps_auth cs (V1.upgrade newAuth this) w Hcs) as [Hrun1 _].
  destruct (run_keeps_auth cs (V2.upgrade newAuth this) w Hcs) as [_ Hrun2].
  split.
  - split; [reflexivity|]. rewrite Hrun1. split; [reflexivity|].
    assert (Hauth : auth (V1.upgrade newAuth this) = Some newAuth) by reflexivity.
    generalize (snd (V1.run cs (V1.upgrade newAuth this, w))). intros w'.
    cbv zeta. generalize dependent (V1.upgrade newAuth this). intros this' _ Hauth.
    open_private Hauth. split.
    + intros Hov.
      assert (Hh : lookup "headers" (own configOverride) = None) by (apply Hov; simpl; tauto).
      rewrite field_config_absent by (exact Hh || reflexivity).
      unfold header, field. rewrite !lookup_layered by (exact Hh || reflexivity).
      reflexivity.
    + intros Hov.
      assert (Hu : lookup "url" (own configOverride) = None) by (apply Hov; simpl; tauto).
      assert (Hd : lookup "data" (own configOverride) = None) by (apply Hov; simpl; tauto).
      unfold in_query, in_body. rewrite !lookup_layered by (assumption || reflexivity).
      destruct (method =? "GET")%string; [left | right]; reflexivity.
  - split; [reflexivity|]. rewrite Hrun2. split; [reflexivity|].
    assert (Hauth : auth (V2.upgrade newAuth this) = Some newAuth) by reflexivity.
    generalize (snd (V2.run cs (V2.upgrade newAuth this, w))). intros w'.
    cbv zeta. generalize dependent (V2.upgrade newAuth this). intros this' _ Hauth.
    open_private Hauth. split.
    + intros Hov.
      assert (Hh : lookup "headers" (own configOverride) = None) by (apply Hov; simpl; tauto).
      rewrite field_config_absent by (exact Hh || reflexivity).
      unfold header, field. rewrite !lookup_layered by (exact Hh || reflexivity).
      reflexivity.
    + intros Hov.
      assert (Hu : lookup "url" (own configOverride) = None) by (apply Hov; simpl; tauto).
      unfold in_query. rewrite !lookup_layered by (assumption || reflexivity).
      reflexivity.
Qed.

Lemma upgrade_installs_credentials_witness :
  forallb not_upgrade calls_after_upgrade = true
  /\ sets_none_of ["headers"] None
  /\ sets_none_of ["url"; "data"] None
  /\ auth (fst (V1.run calls_after_upgrade
                  (V1.upgrade pk2sk2 (V1.getRawAgent None), answering 1500000000000)))
     = Some pk2sk2
  /\ exists d,
      wire (snd (V2.privateRequest
                   (fst (V2.run calls_after_upgrade
                           (V2.upgrade pk2sk2 (V2.getRawAgent None), answering 1500000000000)))
                   "api/v3/account" "GET" None None
                   (snd (V2.run calls_after_upgrade
                           (V2.upgrade pk2sk2 (V2.getRawAgent None), answering 1500000000000)))))
      = (wire (snd (V2.run calls_after_upgrade
                      (V2.upgrade pk2sk2 (V2.getRawAgent None), answering 1500000000000)))
           ++ [d])%list
      /\ header "X-MBX-APIKEY" d = Some (Str "pk2")
      /\ in_query "api/v3/account"
                  (body (V2.signMessage
                           (snd (V2.run calls_after_upgrade
                                   (V2.upgrade pk2sk2 (V2.getRawAgent None),
                                    answering 1500000000000)))
                           None "sk2")) d.
Proof.
  assert (Hh : sets_none_of ["headers"] None) by (intros k _; reflexivity).
  assert (Hu : sets_none_of ["url"; "data"] None) by (intros k _; reflexivity).
  destruct (upgrade_installs_credentials pk2sk2 (V1.getRawAgent None) calls_after_upgrade
              "api/v3/account" "GET" None None (answering 1500000000000) eq_refl)
    as [[_ [Hkept _]] [_ [_ [d [Hwire [Hkey Hsigned]]]]]].
  split; [reflexivity|]. split; [exact Hh|]. split; [exact Hu|]. split; [exact Hkept|].
  exists d. split; [exact Hwire|]. split; [exact (Hkey Hh) | exact (Hsigned Hu)].
Defined.

(** ** Counting the properties of a serialisation *)

Lemma count_app (c : ascii) (s1 s2 : string) :
  count c (s1 ++ s2) = count c s1 + count c s2.
Proof. induction s1 as [|c' s1 IH]; simpl; [reflexivity | rewrite IH; lia]. Qed.

Lemma count_eq_percent (c : ascii) : count "=" (QS.percent c) = 0.
Proof. destruct c as [[] [] [] [] [] [] [] []]; reflexivity. Qed.

Lemma unreserved_not_eq (c : ascii) : QS.unreserved c = true -> Ascii.eqb "=" c = false.
Proof. destruct c as [[] [] [] [] [] [] [] []]; (reflexivity || discriminate). Qed.

(** The encoder never emits ['=']. *)
Lemma count_eq_encode (s : string) : count "=" (QS.encode s) = 0.
Proof.
  induction s as [|c s IH]; [reflexivity|].
  cbn [QS.encode]. destruct (QS.unreserved c) eqn:Hc.
  - cbn [count]. now rewrite (unreserved_not_eq c Hc), IH.
  - now rewrite count_app, count_eq_percent, IH.
Qed.

Lemma count_eq_pair (kv : string * scalar) : count "=" (QS.pair kv) = 1.
Proof.
  unfold QS.pair. rewrite !count_app, !count_eq_encode. reflexivity.
Qed.

(** One ['='] per property: the serialisation tells how many properties
    were signed. *)
Lemma count_eq_stringify (o : IPostBody) : count "=" (QS.stringify (Some o)) = length o.
Proof.
  unfold QS.stringify. cbn [own].
  induction o as [|kv rest IH]; [reflexivity|].
  cbn [map String.concat length]. destruct rest as [|kv' rest'].
  - cbn [map length]. apply count_eq_pair.
  - cbn [map] in *. rewrite !count_app, count_eq_pair. cbn [count Ascii.eqb Bool.eqb].
    rewrite IH. reflexivity.
Qed.

Lemma has_remove_other (k k' : string) (o : IPostBody) :
  k <> k' -> has k (remove k' o) = has k o.
Proof.
  intros Hne. unfold has. rewrite lookup_remove.
  destruct (String.eqb_spec k' k); [congruence | reflexivity].
Qed.

Lemma has_assign_other (k k' : string) (v : scalar) (o : IPostBody) :
  k <> k' -> has k (assign k' v o) = has k o.
Proof. intros Hne. unfold has. now rewrite lookup_assign_other. Qed.

(** Dropping [signature] from a body that has it makes the signed body one
    property shorter, in the first version and in the later one. *)
Lemma signedBody_length (t : Z) (B : IPostBody) (stale : scalar) :
  object B -> lookup "signature" B = Some stale ->
  length (assign "timestamp" (SNum t) (spread B []))
  = S (length (assign "timestamp" (SNum t) (spread (remove "signature" B) [])))
  /\
  length (assign "recvWindow" (SNum V2.recvWindow)
            (assign "timestamp" (SNum t) (spread B [])))
  = S (length (assign "recvWindow" (SNum V2.recvWindow)
                 (assign "timestamp" (SNum t) (spread (remove "signature" B) [])))).
Proof.
  intros Hobj Hsig.
  rewrite (spread_fresh B Hobj), (spread_fresh _ (object_remove "signature" B Hobj)).
  rewrite !length_assign.
  rewrite !has_assign_other by discriminate.
  rewrite !has_remove_other by discriminate.
  rewrite (length_remove "signature" stale B (proj1 Hobj) Hsig).
  destruct (has "timestamp" B), (has "recvWindow" B); split; reflexivity.
Qed.

Lemma stringify_length_differs (o o' : IPostBody) :
  length o = S (length o') -> QS.stringify (Some o) <> QS.stringify (Some o').
Proof.
  intros Hlen Heq. apply (f_equal (count "=")) in Heq.
  rewrite !count_eq_stringify in Heq. lia.
Qed.

(** * Further properties of the agent *)

(** ** What comes back from the transport *)

Lemma after_axios (agentConfig : descriptor) (w : World)
      (resolve reject : value -> promise) :
  fst (match axios agentConfig w with
       | (Fulfilled response, w') => (resolve response, w')
       | (Failed err, w') => (reject err, w')
       end)
  = match network w agentConfig with
    | Fulfilled response => resolve response
    | Failed err => reject err
    end.
Proof. unfold axios. now destruct (network w agentConfig). Qed.

(** Opens a call as [open_private] and [open_public] do, keeping the
    promise next to the wire. *)
Ltac open_outcome :=
  cbv zeta; eexists; split; [apply wire_after_axios | rewrite after_axios].

(** X1: [publicRequest] has no [catch]: whatever the agent, it hands the
    transport one descriptor, resolves with the transport's response as it
    is, and rejects with the transport's error as it is, never with a
    [TypeError] of its own. A keyed [privateRequest] resolves with the
    response as it is as well, and a failure goes through the [catch] block.
    Both versions. *)
Theorem requests_pass_the_transport_outcome
        (this : IRawAgent) (a : IApiAuth) (endpoint method : string)
        (params : option IPostBody) (configOverride : option (props value)) (w : World) :
  auth this = Some a ->
  Forall (fun M =>
    (forall anyone : IRawAgent, exists d,
        wire (snd (RawAgent.publicRequest M anyone endpoint params configOverride w))
        = (wire w ++ [d])%list
        /\ fst (RawAgent.publicRequest M anyone endpoint params configOverride w)
           = match network w d with
             | Fulfilled response => Resolved response
             | Failed err => Rejected (Raised err)
             end)
    /\
    (exists d,
        wire (snd (RawAgent.privateRequest M this endpoint method params configOverride w))
        = (wire w ++ [d])%list
        /\ fst (RawAgent.privateRequest M this endpoint method params configOverride w)
           = match network w d with
             | Fulfilled response => Resolved response
             | Failed err => reject_with (rejectionReason err)
             end))
    RawAgent.versions.
Proof.
  intros Hauth. repeat constructor; cbn [RawAgent.publicRequest RawAgent.privateRequest
                                         RawAgent.first RawAgent.later].
  - intros anyone. unfold V1.publicRequest. open_outcome. reflexivity.
  - unfold V1.privateRequest, V1.isUpgraded. rewrite Hauth. cbn [truthy value_of_auth negb].
    open_outcome. reflexivity.
  - intros anyone. unfold V2.publicRequest. open_outcome. reflexivity.
  - unfold V2.privateRequest, V2.isUpgraded. rewrite Hauth. cbn [truthy value_of_auth negb].
    open_outcome. reflexivity.
Qed.

Lemma requests_pass_the_transport_outcome_witness :
  auth (V1.getRawAgent (Some pk2sk2)) = Some pk2sk2
  /\ fst (V1.publicRequest (V1.getRawAgent None) "api/v1/time" None None
            (failing 0 (Obj [("message", Str "socket hang up")])))
     = Rejected (Raised (Obj [("message", Str "socket hang up")]))
  /\ fst (V2.privateRequest (V1.getRawAgent (Some pk2sk2)) "api/v3/account" "GET" None None
            (answering 0))
     = Resolved (Obj [("status", Num 200)]).
Proof.
  pose proof (requests_pass_the_transport_outcome (V1.getRawAgent (Some pk2sk2)) pk2sk2
                "api/v1/time" "GET" None None
                (failing 0 (Obj [("message", Str "socket hang up")])) eq_refl) as Hfail.
  pose proof (requests_pass_the_transport_outcome (V1.getRawAgent (Some pk2sk2)) pk2sk2
                "api/v3/account" "GET" None None (answering 0) eq_refl) as Hok.
  apply Forall_inv in Hfail. destruct Hfail as [Hpublic _].
  destruct (Hpublic (V1.getRawAgent None)) as [d [_ Hd]].
  apply Forall_inv_tail, Forall_inv in Hok. destruct Hok as [_ [d' [_ Hd']]].
  split; [reflexivity|]. split; [exact Hd | exact Hd'].
Defined.

(** ** Layers of configuration *)

(** A field of the process defaults that the caller's override leaves
    alone reaches the descriptor with the default's value. *)
Lemma lookup_defaulted (k : string) (v : value) (configOverride : option (props value))
      (defaults base : props value) :
  lookup k (own configOverride) = None ->
  lookup k (spread defaults []) = Some v ->
  lookup k (spread (spread (own configOverride) (spread defaults [])) base) = Some v.
Proof.
  intros Hov Hdef. apply lookup_spread_present.
  - apply (proj1 (object_spread _ _ (object_spread _ _ object_nil))).
  - now rewrite lookup_spread_absent.
Qed.

(** X2: a public request never carries the key header, also on an agent
    that holds keys: unless the caller's override brings its own [headers],
    the descriptor has the base headers and no [X-MBX-APIKEY]. Both
    versions. *)
Theorem publicRequest_sends_no_key
        (this : IRawAgent) (endpoint : string) (queryParams : option IPostBody)
        (configOverride : option (props value)) (w : World) :
  sets_none_of ["headers"] configOverride ->
  Forall (fun M =>
    exists d,
      wire (snd (RawAgent.publicRequest M this endpoint queryParams configOverride w))
      = (wire w ++ [d])%list
      /\ header "X-MBX-APIKEY" d = None
      /\ header "Cache-Control" d = Some (Str "no-cache")
      /\ header "Content-Length" d = Some (Num 0)
      /\ header "User-Agent" d
         = Some (Str "Binance API Client (binance-cryptoexchange-api node package)"))
    RawAgent.versions.
Proof.
  intros Hov.
  assert (Hh : lookup "headers" (own configOverride) = None) by (apply Hov; simpl; tauto).
  repeat constructor; cbn [RawAgent.publicRequest RawAgent.first RawAgent.later];
    open_public; unfold header, field;
    rewrite !lookup_layered by (exact Hh || reflexivity); repeat split.
Qed.

Lemma publicRequest_sends_no_key_witness :
  sets_none_of ["headers"] (Some testnet_override)
  /\ exists d,
      wire (snd (V1.publicRequest (V1.getRawAgent (Some pk2sk2)) "api/v1/depth"
                   (Some [("symbol", SStr "BTCUSDT")]) (Some testnet_override)
                   (answering 0))) = [d]
      /\ header "X-MBX-APIKEY" d = None.
Proof.
  assert (Hov : sets_none_of ["headers"] (Some testnet_override)).
  { intros k [<-|[]]. reflexivity. }
  split; [exact Hov|].
  pose proof (publicRequest_sends_no_key (V1.getRawAgent (Some pk2sk2)) "api/v1/depth"
                (Some [("symbol", SStr "BTCUSDT")]) (Some testnet_override)
                (answering 0) Hov) as H.
  apply Forall_inv in H. destruct H as [d [Hwire [Hkey _]]].
  exists d. split; [exact Hwire | exact Hkey].
Defined.

(** X3: the caller's override has the last word on every field: whatever
    property the override object holds, [method], [url], [data] and
    [headers] included, the descriptor handed to the transport holds it with
    the override's value, for a public request and for a keyed private one,
    in both versions. *)
Theorem override_has_the_last_word
        (this : IRawAgent) (a : IApiAuth) (endpoint method : string)
        (params : option IPostBody) (override : props value) (k : string) (v : value)
        (w : World) :
  auth this = Some a ->
  distinct override ->
  lookup k override = Some v ->
  Forall (fun M =>
    (exists d,
        wire (snd (RawAgent.publicRequest M this endpoint params (Some override) w))
        = (wire w ++ [d])%list
        /\ lookup k d = Some v)
    /\
    (exists d,
        wire (snd (RawAgent.privateRequest M this endpoint method params (Some override) w))
        = (wire w ++ [d])%list
        /\ lookup k d = Some v))
    RawAgent.versions.
Proof.
  intros Hauth Hobj Hk.
  repeat constructor; cbn [RawAgent.publicRequest RawAgent.privateRequest
                           RawAgent.first RawAgent.later];
    (open_public || open_private Hauth); cbn [own];
    now apply lookup_overridden.
Qed.

Lemma override_has_the_last_word_witness :
  auth (V2.getRawAgent (Some pk2sk2)) = Some pk2sk2
  /\ distinct [("method", Str "PUT"); ("url", Str "/elsewhere")]
  /\ lookup "url" [("method", Str "PUT"); ("url", Str "/elsewhere")] = Some (Str "/elsewhere")
  /\ exists d,
      wire (snd (V2.privateRequest (V2.getRawAgent (Some pk2sk2)) "api/v3/order" "POST"
                   (Some [("symbol", SStr "BTCUSDT")])
                   (Some [("method", Str "PUT"); ("url", Str "/elsewhere")])
                   (answering 0))) = [d]
      /\ lookup "url" d = Some (Str "/elsewhere").
Proof.
  assert (Hobj : distinct [("method", Str "PUT"); ("url", Str "/elsewhere")]).
  { repeat constructor; simpl; intuition discriminate. }
  split; [reflexivity|]. split; [exact Hobj|]. split; [reflexivity|].
  pose proof (override_has_the_last_word (V2.getRawAgent (Some pk2sk2)) pk2sk2
                "api/v3/order" "POST" (Some [("symbol", SStr "BTCUSDT")])
                [("method", Str "PUT"); ("url", Str "/elsewhere")] "url" (Str "/elsewhere")
                (answering 0) eq_refl Hobj eq_refl) as H.
  apply Forall_inv_tail, Forall_inv in H. destruct H as [_ [d [Hwire Hurl]]].
  exists d. split; [exact Hwire | exact Hurl].
Defined.

(** X4: the [rootUrl] and [version] of the configuration are carried along
    and never used: unless the override sets [baseURL] itself, the
    descriptor's [baseURL] is [https://api.binance.com] whatever [rootUrl] the
    override gives, and unless it sets [url] itself, the path is the one the
    call names whatever [version] it gives. Unless the override sets them,
    [timeout] is 3000 and a private call's [method] is the [method] argument,
    not the [POST] of the private base. Both versions, public requests and
    keyed private ones. *)
Theorem defaults_reach_the_descriptor
        (this : IRawAgent) (a : IApiAuth) (endpoint method : string)
        (params : option IPostBody) (configOverride : option (props value)) (w : World) :
  auth this = Some a ->
  Forall (fun M =>
    (exists d,
        wire (snd (RawAgent.publicRequest M this endpoint params configOverride w))
        = (wire w ++ [d])%list
        /\ (sets_none_of ["baseURL"] configOverride ->
            lookup "baseURL" d = Some (Str "https://api.binance.com"))
        /\ (sets_none_of ["timeout"] configOverride ->
            lookup "timeout" d = Some (Num 3000))
        /\ (sets_none_of ["url"] configOverride ->
            lookup "url" d = Some (Str ("/" ++ endpoint ++ "?" ++ QS.stringify params))))
    /\
    (exists d,
        wire (snd (RawAgent.privateRequest M this endpoint method params configOverride w))
        = (wire w ++ [d])%list
        /\ (sets_none_of ["baseURL"] configOverride ->
            lookup "baseURL" d = Some (Str "https://api.binance.com"))
        /\ (sets_none_of ["timeout"] configOverride ->
            lookup "timeout" d = Some (Num 3000))
        /\ (sets_none_of ["method"] configOverride ->
            lookup "method" d = Some (Str method))))
    RawAgent.versions.
Proof.
  intros Hauth.
  assert (Hone : forall k, sets_none_of [k] configOverride ->
                           lookup k (own configOverride) = None).
  { intros k H. apply H. now left. }
  repeat constructor; cbn [RawAgent.publicRequest RawAgent.privateRequest
                           RawAgent.first RawAgent.later];
    (open_public || open_private Hauth);
    (repeat split; intros Hov; apply Hone in Hov;
     (now rewrite lookup_layered) || (now apply lookup_defaulted)).
Qed.

Lemma defaults_reach_the_descriptor_witness :
  auth (V1.getRawAgent (Some pk2sk2)) = Some pk2sk2
  /\ sets_none_of ["baseURL"] (Some [("rootUrl", Str "https://testnet.example")])
  /\ sets_none_of ["method"] (Some [("rootUrl", Str "https://testnet.example")])
  /\ exists d,
      wire (snd (V1.privateRequest (V1.getRawAgent (Some pk2sk2)) "api/v3/order" "DELETE"
                   (Some [("symbol", SStr "BTCUSDT")])
                   (Some [("rootUrl", Str "https://testnet.example")])
                   (answering 0))) = [d]
      /\ lookup "rootUrl" d = Some (Str "https://testnet.example")
      /\ lookup "baseURL" d = Some (Str "https://api.binance.com")
      /\ lookup "method" d = Some (Str "DELETE").
Proof.
  assert (Hb : sets_none_of ["baseURL"] (Some [("rootUrl", Str "https://testnet.example")])).
  { intros k [<-|[]]. reflexivity. }
  assert (Hm : sets_none_of ["method"] (Some [("rootUrl", Str "https://testnet.example")])).
  { intros k [<-|[]]. reflexivity. }
  split; [reflexivity|]. split; [exact Hb|]. split; [exact Hm|].
  pose proof (defaults_reach_the_descriptor (V1.getRawAgent (Some pk2sk2)) pk2sk2
                "api/v3/order" "DELETE" (Some [("symbol", SStr "BTCUSDT")])
                (Some [("rootUrl", Str "https://testnet.example")])
                (answering 0) eq_refl) as H.
  apply Forall_inv in H. destruct H as [_ [d [Hwire [Hbase [_ Hmethod]]]]].
  exists d. split; [exact Hwire|]. split; [|split; [exact (Hbase Hb) | exact (Hmethod Hm)]].
  apply (f_equal (fun l => nth_error l 0)) in Hwire. simpl in Hwire.
  injection Hwire as <-. reflexivity.
Defined.

(** ** The [catch] block, case by case *)

(** A property read throws nothing but the [TypeError] on its own name. *)
Lemma get_throws (v : value) (k : string) (e : exn) :
  get v k = Throw e -> e = TypeError k.
Proof.
  destruct v; simpl; try discriminate; try (now intros [= <-]).
  destruct (lookup k fields); discriminate.
Qed.

(** X5: what the [catch] block of [privateRequest] can come to. When it
    yields a rejection reason, the error had a [response] with a [data] that
    is neither [undefined] nor [null], and the reason is the [error] field if
    truthy, else [data] if truthy, else the response: the final [|| err] is
    never taken. Otherwise it throws a [TypeError] on reading [response],
    [data] or [error]. *)
Theorem rejectionReason_cases (err : value) :
  (forall reason, rejectionReason err = Normal reason ->
     exists response data error,
       get err "response" = Normal response
       /\ get response "data" = Normal data
       /\ get data "error" = Normal error
       /\ truthy response = true
       /\ reason = (if truthy error then error else if truthy data then data else response))
  /\
  (forall e, rejectionReason err = Throw e ->
     e = TypeError "response" \/ e = TypeError "data" \/ e = TypeError "error").
Proof.
  unfold rejectionReason. split.
  - intros reason H.
    destruct (get err "response") as [response|e] eqn:Hr; [|discriminate].
    cbn [bind] in H.
    destruct (get response "data") as [data|e] eqn:Hd; [|discriminate].
    cbn [bind] in H.
    destruct (get data "error") as [error|e] eqn:He; [|discriminate].
    cbn [bind] in H. injection H as <-.
    assert (Ht : truthy response = true).
    { destruct response; simpl in Hd; try discriminate; try reflexivity;
        injection Hd as <-; discriminate. }
    exists response, data, error. repeat split; try assumption.
    unfold js_or. destruct (truthy error) eqn:Te; destruct (truthy data) eqn:Td;
      cbn iota; rewrite ?Te, ?Td, ?Ht; cbn iota; rewrite ?Te, ?Td, ?Ht; reflexivity.
  - intros e H.
    destruct (get err "response") as [response|e1] eqn:Hr.
    + cbn [bind] in H. destruct (get response "data") as [data|e2] eqn:Hd.
      * cbn [bind] in H. destruct (get data "error") as [error|e3] eqn:He; [discriminate|].
        cbn [bind] in H. injection H as <-. apply get_throws in He. auto.
      * cbn [bind] in H. injection H as <-. apply get_throws in Hd. auto.
    + cbn [bind] in H. injection H as <-. apply get_throws in Hr. auto.
Qed.

Lemma rejectionReason_cases_witness :
  rejectionReason (Obj [("response", Obj [("status", Num 400); ("data", Str "")])])
  = Normal (Obj [("status", Num 400); ("data", Str "")])
  /\ exists response data error,
      get (Obj [("response", Obj [("status", Num 400); ("data", Str "")])]) "response"
      = Normal response
      /\ get response "data" = Normal data
      /\ get data "error" = Normal error
      /\ truthy response = true
      /\ Obj [("status", Num 400); ("data", Str "")]
         = (if truthy error then error else if truthy data then data else response).
Proof.
  split; [reflexivity|].
  exact (proj1 (rejectionReason_cases
                  (Obj [("response", Obj [("status", Num 400); ("data", Str "")])]))
               (Obj [("status", Num 400); ("data", Str "")]) eq_refl).
Defined.

(** ** The layout of the signed body *)

(** A name that is no array index never has to go before another. *)
Lemma before_name (k k' : string) : index_of k = None -> before k k' = false.
Proof. intros H. unfold before. now rewrite H. Qed.

(** A new property with an ordinary name goes last. *)
Lemma assign_new_name {A : Type} (k : string) (v : A) (o : props A) :
  index_of k = None -> lookup k o = None -> assign k v o = (o ++ [(k, v)])%list.
Proof.
  intros Hk Hnone. apply assign_absent; [exact Hnone|].
  apply Forall_forall. intros k' _. now apply before_name.
Qed.

Lemma lookup_app_none {A : Type} (k : string) (o o' : props A) :
  lookup k o = None -> lookup k (o ++ o')%list = lookup k o'.
Proof.
  induction o as [|[k' v'] rest IH]; simpl; [reflexivity|].
  destruct (String.eqb_spec k k'); [discriminate | exact IH].
Qed.

(** X7: the order of what is signed and returned. For a caller's body with
    no [timestamp] and no [signature] of its own, the first version signs
    the caller's properties in their order followed by [timestamp], and
    returns them followed by [timestamp] and [signature]; for a body that has
    no [recvWindow] either, the later version signs and returns them with
    [recvWindow: 5000] between the two. *)
Theorem signMessage_appends_in_order (w : World) (postData : option IPostBody) (S : string) :
  object (own postData) ->
  lookup "timestamp" (own postData) = None ->
  lookup "signature" (own postData) = None ->
  (digest (V1.signMessage w postData S)
   = Crypto.createHmac_sha256_hex S
       (QS.stringify (Some (own postData ++ [("timestamp", SNum (Date_now w))])%list))
   /\ body (V1.signMessage w postData S)
      = (own postData
           ++ [("timestamp", SNum (Date_now w));
               ("signature", SStr (digest (V1.signMessage w postData S)))])%list)
  /\
  (lookup "recvWindow" (own postData) = None ->
   digest (V2.signMessage w postData S)
   = Crypto.createHmac_sha256_hex S
       (QS.stringify (Some (own postData ++ [("timestamp", SNum (Date_now w));
                                             ("recvWindow", SNum 5000)])%list))
   /\ body (V2.signMessage w postData S)
      = (own postData
           ++ [("timestamp", SNum (Date_now w));
               ("recvWindow", SNum 5000);
               ("signature", SStr (digest (V2.signMessage w postData S)))])%list).
Proof.
  intros Hobj Hts Hsig.
  assert (H1 : assign "timestamp" (SNum (Date_now w)) (spread (own postData) [])
               = (own postData ++ [("timestamp", SNum (Date_now w))])%list).
  { rewrite (spread_fresh _ Hobj). now apply assign_new_name. }
  split.
  - rewrite V1_body_eq. unfold V1.signMessage at 1. cbn [digest]. rewrite H1.
    split; [reflexivity|].
    rewrite assign_new_name; [now rewrite <- app_assoc | reflexivity |].
    rewrite lookup_app_none by exact Hsig. reflexivity.
  - intros Hrw.
    assert (H2 : assign "recvWindow" (SNum V2.recvWindow)
                   (assign "timestamp" (SNum (Date_now w)) (spread (own postData) []))
                 = (own postData ++ [("timestamp", SNum (Date_now w));
                                     ("recvWindow", SNum 5000)])%list).
    { rewrite H1. rewrite assign_new_name; [now rewrite <- app_assoc | reflexivity |].
      rewrite lookup_app_none by exact Hrw. reflexivity. }
    rewrite V2_body_eq. unfold V2.signMessage at 1. cbn [digest]. rewrite H2.
    split; [reflexivity|].
    change (SNum 5000) with (SNum V2.recvWindow) at 1. rewrite H2.
    rewrite assign_new_name; [now rewrite <- app_assoc | reflexivity |].
    rewrite lookup_app_none by exact Hsig. reflexivity.
Qed.

Lemma signMessage_appends_in_order_witness :
  object (own (Some [("symbol", SStr "BTCUSDT"); ("limit", SNum 5)]))
  /\ body (V2.signMessage (answering 1500000000000)
             (Some [("symbol", SStr "BTCUSDT"); ("limit", SNum 5)]) "sk2")
     = [("symbol", SStr "BTCUSDT"); ("limit", SNum 5);
        ("timestamp", SNum 1500000000000); ("recvWindow", SNum 5000);
        ("signature",
         SStr (digest (V2.signMessage (answering 1500000000000)
                         (Some [("symbol", SStr "BTCUSDT"); ("limit", SNum 5)]) "sk2")))].
Proof.
  assert (Hobj : object (own (Some [("symbol", SStr "BTCUSDT"); ("limit", SNum 5)])))
    by literal_object.
  split; [exact Hobj|].
  exact (proj2 (proj2 (signMessage_appends_in_order (answering 1500000000000)
                         (Some [("symbol", SStr "BTCUSDT"); ("limit", SNum 5)]) "sk2"
                         Hobj eq_refl eq_refl) eq_refl)).
Defined.

(** ** The shape of a digest *)

Section DigestShape.
Local Open Scope N_scope.
Local Open Scope list_scope.

Lemma be_bytes_small (len : nat) (x : N) :
  Forall (fun b => b < 256) (Crypto.be_bytes len x).
Proof.
  revert x. induction len as [|len IH]; intros x; simpl; [constructor|].
  apply Forall_app. split; [apply IH|].
  constructor; [|constructor]. now apply N.mod_lt.
Qed.

Lemma be_bytes_length (len : nat) (x : N) : length (Crypto.be_bytes len x) = len.
Proof.
  revert x. induction len as [|len IH]; intros x; simpl; [reflexivity|].
  rewrite length_app, IH. simpl. lia.
Qed.

Lemma round_length (s : list N) (kw : N * N) : length (Crypto.round s kw) = length s.
Proof.
  destruct s as [|a [|b [|c [|d [|e [|f [|g [|h [|i s]]]]]]]]]; reflexivity.
Qed.

Lemma rounds_length (kws : list (N * N)) (s : list N) :
  length (fold_left Crypto.round kws s) = length s.
Proof.
  revert s. induction kws as [|kw kws IH]; intros s; simpl; [reflexivity|].
  now rewrite IH, round_length.
Qed.

Lemma compress_length (h block : list N) : length (Crypto.compress h block) = length h.
Proof.
  unfold Crypto.compress. rewrite length_map, length_combine, rounds_length. lia.
Qed.

Lemma state_length (bs : list (list N)) (h : list N) :
  length (fold_left Crypto.compress bs h) = length h.
Proof.
  revert h. induction bs as [|b bs IH]; intros h; simpl; [reflexivity|].
  now rewrite IH, compress_length.
Qed.

Lemma flat_be_bytes_length (ws : list N) :
  length (flat_map (Crypto.be_bytes 4) ws) = (4 * length ws)%nat.
Proof.
  induction ws as [|x ws IH]; [reflexivity|].
  cbn [flat_map]. rewrite length_app, be_bytes_length, IH. simpl. lia.
Qed.

Lemma sha256_length (msg : list N) : length (Crypto.sha256 msg) = 32%nat.
Proof.
  unfold Crypto.sha256. cbv zeta. rewrite flat_be_bytes_length, state_length. reflexivity.
Qed.

Lemma sha256_small (msg : list N) : Forall (fun b => b < 256) (Crypto.sha256 msg).
Proof.
  unfold Crypto.sha256. cbv zeta. apply Forall_flat_map, Forall_forall.
  intros x _. apply be_bytes_small.
Qed.

Lemma hexchar_digit (n : N) : n < 16 -> is_hex_digit (Crypto.hexchar n) = true.
Proof.
  intros H. destruct n as [|p]; [reflexivity|].
  do 4 (try (destruct p as [p|p|]; try reflexivity));
    exfalso; unfold N.lt in H; simpl in H; destruct p; discriminate.
Qed.

Lemma hex_digits (bs : list N) :
  Forall (fun b => b < 256) bs ->
  Forall (fun c => is_hex_digit c = true) (list_ascii_of_string (Crypto.hex bs)).
Proof.
  intros H. unfold Crypto.hex. rewrite list_ascii_of_string_of_list_ascii.
  apply Forall_flat_map. eapply Forall_impl; [|exact H].
  intros b Hb. cbv beta in *. repeat constructor; apply hexchar_digit.
  - apply N.Div0.div_lt_upper_bound. lia.
  - now apply N.mod_lt.
Qed.

Lemma hex_length (bs : list N) : String.length (Crypto.hex bs) = (2 * length bs)%nat.
Proof.
  unfold Crypto.hex.
  assert (Hlen : forall l, String.length (string_of_list_ascii l) = length l).
  { induction l as [|c l IH]; simpl; [reflexivity | now rewrite IH]. }
  rewrite Hlen. induction bs as [|b bs IH]; [reflexivity|].
  cbn [flat_map length app]. rewrite IH. simpl. lia.
Qed.
End DigestShape.

Lemma hex_digit_unreserved (c : ascii) : is_hex_digit c = true -> QS.unreserved c = true.
Proof. destruct c as [[] [] [] [] [] [] [] []]; (reflexivity || discriminate). Qed.

(** Text made of hexadecimal digits goes through the encoder unchanged. *)
Lemma encode_hex_digits (s : string) :
  Forall (fun c => is_hex_digit c = true) (list_ascii_of_string s) -> QS.encode s = s.
Proof.
  induction s as [|c s IH]; [reflexivity|].
  cbn [list_ascii_of_string QS.encode]. intros H. inversion H as [|? ? Hc Hs]; subst.
  now rewrite (hex_digit_unreserved c Hc), IH.
Qed.

(** X8: the digest of a signature is 64 lower-case hexadecimal digits,
    whatever the body, the secret and the clock, and so is the [signature]
    of the returned body; the serialiser leaves it as it is. Both versions. *)
Theorem digest_is_64_hex_digits (w : World) (postData : option IPostBody) (S : string) :
  Forall (fun M =>
    String.length (digest (RawAgent.signMessage M w postData S)) = 64
    /\ Forall (fun c => is_hex_digit c = true)
              (list_ascii_of_string (digest (RawAgent.signMessage M w postData S)))
    /\ QS.encode (digest (RawAgent.signMessage M w postData S))
       = digest (RawAgent.signMessage M w postData S)
    /\ lookup "signature" (body (RawAgent.signMessage M w postData S))
       = Some (SStr (digest (RawAgent.signMessage M w postData S))))
    RawAgent.versions.
Proof.
  assert (Hhmac : forall secret text,
             String.length (Crypto.createHmac_sha256_hex secret text) = 64
             /\ Forall (fun c => is_hex_digit c = true)
                       (list_ascii_of_string (Crypto.createHmac_sha256_hex secret text))).
  { intros secret text. unfold Crypto.createHmac_sha256_hex, Crypto.hmac_sha256. cbv zeta.
    split; [now rewrite hex_length, sha256_length | apply hex_digits, sha256_small]. }
  repeat constructor; cbn [RawAgent.signMessage RawAgent.first RawAgent.later];
    try (rewrite ?V1_body_eq, ?V2_body_eq; apply lookup_assign_same);
    unfold V1.signMessage, V2.signMessage; cbn [digest];
    try apply Hhmac; apply encode_hex_digits, Hhmac.
Qed.

Lemma createHmac_hex_digits (secret text : string) :
  Forall (fun c => is_hex_digit c = true)
         (list_ascii_of_string (Crypto.createHmac_sha256_hex secret text)).
Proof.
  unfold Crypto.createHmac_sha256_hex, Crypto.hmac_sha256. cbv zeta.
  apply hex_digits, sha256_small.
Qed.

(** ** What the exchange verifies *)

Lemma append_assoc (s1 s2 s3 : string) : (s1 ++ s2) ++ s3 = s1 ++ (s2 ++ s3).
Proof. induction s1 as [|c s1 IH]; simpl; [reflexivity | now rewrite IH]. Qed.

Lemma concat_snoc (sep x : string) (l : list string) :
  l <> [] -> String.concat sep (l ++ [x])%list = String.concat sep l ++ sep ++ x.
Proof.
  induction l as [|y l IH]; [congruence|]. intros _.
  destruct l as [|z l].
  - simpl. reflexivity.
  - change (String.concat sep ((y :: z :: l) ++ [x])%list)
      with (y ++ sep ++ String.concat sep ((z :: l) ++ [x])%list).
    rewrite IH by discriminate.
    change (String.concat sep (y :: z :: l)) with (y ++ sep ++ String.concat sep (z :: l)).
    now rewrite !append_assoc.
Qed.

Lemma stringify_snoc (o : IPostBody) (kv : string * scalar) :
  o <> [] ->
  QS.stringify (Some (o ++ [kv])%list) = QS.stringify (Some o) ++ "&" ++ QS.pair kv.
Proof.
  intros Hne. unfold QS.stringify. cbn [own]. rewrite map_app. cbn [map].
  apply concat_snoc. destruct o; [congruence | discriminate].
Qed.

(** The serialised body of a signature is the signed text followed by
    [&signature=] and the digest, when the caller's body has no [signature]
    of its own. *)
Lemma stringify_signed (secret : string) (signedBody : IPostBody) :
  signedBody <> [] ->
  lookup "signature" signedBody = None ->
  QS.stringify
    (Some (assign "signature"
             (SStr (Crypto.createHmac_sha256_hex secret (QS.stringify (Some signedBody))))
             signedBody))
  = QS.stringify (Some signedBody) ++ "&signature="
      ++ Crypto.createHmac_sha256_hex secret (QS.stringify (Some signedBody)).
Proof.
  intros Hne Hsig. rewrite assign_new_name by (reflexivity || exact Hsig).
  rewrite stringify_snoc by exact Hne. unfold QS.pair. cbn [fst snd string_of_scalar].
  rewrite (encode_hex_digits _ (createHmac_hex_digits _ _)). reflexivity.
Qed.

Lemma assign_not_nil {A : Type} (k : string) (v : A) (o : props A) : assign k v o <> [].
Proof.
  intros H. pose proof (lookup_assign_same k v o) as Hk. rewrite H in Hk. discriminate.
Qed.

(** X6: the signature covers exactly the rest of the query string. When
    the caller's body has no [signature] of its own and the override leaves
    [url] alone, the [url] of a keyed private call is the path, ['?'], a text,
    ['&signature='], and the HMAC-SHA256 of that very text under the stored
    private key, in hexadecimal: for a [GET] in the first version, for every
    verb in the later one. The text is what [signMessage] signed. *)
Theorem signature_covers_the_query
        (this : IRawAgent) (a : IApiAuth) (endpoint method : string)
        (params : option IPostBody) (configOverride : option (props value)) (w : World) :
  auth this = Some a ->
  lookup "signature" (own params) = None ->
  sets_none_of ["url"] configOverride ->
  (method = "GET" ->
   exists d,
     wire (snd (V1.privateRequest this endpoint method params configOverride w))
     = (wire w ++ [d])%list
     /\ exists text,
         digest (V1.signMessage w params (privateKey a))
         = Crypto.createHmac_sha256_hex (privateKey a) text
         /\ lookup "url" d
            = Some (Str ("/" ++ endpoint ++ "?" ++ text ++ "&signature="
                             ++ Crypto.createHmac_sha256_hex (privateKey a) text)))
  /\
  (exists d,
     wire (snd (V2.privateRequest this endpoint method params configOverride w))
     = (wire w ++ [d])%list
     /\ exists text,
         digest (V2.signMessage w params (privateKey a))
         = Crypto.createHmac_sha256_hex (privateKey a) text
         /\ lookup "url" d
            = Some (Str ("/" ++ endpoint ++ "?" ++ text ++ "&signature="
                             ++ Crypto.createHmac_sha256_hex (privateKey a) text))).
Proof.
  intros Hauth Hsig Hov.
  assert (Hu : lookup "url" (own configOverride) = None) by (apply Hov; simpl; tauto).
  assert (Hfresh : lookup "signature" (spread (own params) (@nil (string * scalar))) = None).
  { now rewrite lookup_spread_absent. }
  split.
  - intros ->. open_private Hauth.
    exists (QS.stringify (Some (assign "timestamp" (SNum (Date_now w))
                                   (spread (own params) [])))).
    split; [reflexivity|].
    rewrite lookup_layered by (exact Hu || reflexivity).
    cbn [String.eqb Ascii.eqb Bool.eqb]. rewrite V1_body_eq.
    unfold V1.signMessage at 1. cbn [digest].
    rewrite stringify_signed; [reflexivity | apply assign_not_nil |].
    now rewrite lookup_assign_other by discriminate.
  - open_private Hauth.
    exists (QS.stringify (Some (assign "recvWindow" (SNum V2.recvWindow)
                                   (assign "timestamp" (SNum (Date_now w))
                                      (spread (own params) []))))).
    split; [reflexivity|].
    rewrite lookup_layered by (exact Hu || reflexivity).
    rewrite V2_body_eq. unfold V2.signMessage at 1. cbn [digest].
    change (SNum 5000) with (SNum V2.recvWindow).
    rewrite stringify_signed; [reflexivity | apply assign_not_nil |].
    now rewrite !lookup_assign_other by discriminate.
Qed.

Lemma signature_covers_the_query_witness :
  auth (V2.getRawAgent (Some pk2sk2)) = Some pk2sk2
  /\ lookup "signature" (own (Some [("symbol", SStr "BTCUSDT")])) = None
  /\ sets_none_of ["url"] None
  /\ exists d text,
      wire (snd (V2.privateRequest (V2.getRawAgent (Some pk2sk2)) "api/v3/order" "DELETE"
                   (Some [("symbol", SStr "BTCUSDT")]) None (answering 1500000000000)))
      = [d]
      /\ lookup "url" d
         = Some (Str ("/api/v3/order?" ++ text ++ "&signature="
                          ++ Crypto.createHmac_sha256_hex "sk2" text)).
Proof.
  assert (Hov : sets_none_of ["url"] None) by (intros k _; reflexivity).
  split; [reflexivity|]. split; [reflexivity|]. split; [exact Hov|].
  destruct (signature_covers_the_query (V2.getRawAgent (Some pk2sk2)) pk2sk2
              "api/v3/order" "DELETE" (Some [("symbol", SStr "BTCUSDT")]) None
              (answering 1500000000000) eq_refl eq_refl Hov)
    as [_ [d [Hwire [text [_ Hurl]]]]].
  exists d, text. split; [exact Hwire | exact Hurl].
Defined.

(** ** A body that arrives with a [signature] *)

Lemma concat_holds (sep x : string) (l : list string) :
  In x l -> exists front back, String.concat sep l = front ++ x ++ back.
Proof.
  induction l as [|y l IH]; [intros []|].
  intros [->|Hin].
  - destruct l as [|z l].
    + exists "", "". cbn [String.concat]. now rewrite append_empty_r.
    + exists "", (sep ++ String.concat sep (z :: l)). reflexivity.
  - destruct l as [|z l]; [destruct Hin|].
    destruct (IH Hin) as [front [back Heq]].
    exists (y ++ sep ++ front), back.
    change (String.concat sep (y :: z :: l)) with (y ++ sep ++ String.concat sep (z :: l)).
    now rewrite Heq, !append_assoc.
Qed.

Lemma stringify_holds (k : string) (v : scalar) (o : IPostBody) :
  In (k, v) o ->
  exists front back,
    QS.stringify (Some o)
    = front ++ QS.encode k ++ "=" ++ QS.encode (string_of_scalar v) ++ back.
Proof.
  intros Hin. unfold QS.stringify. cbn [own].
  destruct (concat_holds "&" (QS.pair (k, v)) (map QS.pair o) (in_map QS.pair _ _ Hin))
    as [front [back Heq]].
  exists front, back. rewrite Heq. unfold QS.pair. cbn [fst snd].
  now rewrite !append_assoc.
Qed.

(** X15: when the caller's body already has a [signature], the text that
    is given to the HMAC still contains the caller's stale value, as the
    pair [signature=<stale>]; only the returned body has [signature]
    replaced by the fresh digest. The same body without its [signature],
    signed under the same clock reading and secret, gives another signed
    text. Both versions. *)
Theorem stale_signature_stays_in_the_signed_text
        (w : World) (B : IPostBody) (S : string) (stale : scalar) :
  object B ->
  lookup "signature" B = Some stale ->
  keeps_stale_signature V1.signMessage w B S stale
  /\ keeps_stale_signature V2.signMessage w B S stale.
Proof.
  intros Hobj Hsig.
  destruct (signedBody_length (Date_now w) B stale Hobj Hsig) as [Hlen1 Hlen2].
  pose proof (object_remove "signature" B Hobj) as Hobj'.
  assert (Hgone : lookup "signature" (remove "signature" B) = None).
  { rewrite lookup_remove. now rewrite String.eqb_refl. }
  split.
  - assert (Hin : In ("signature", stale)
                     (assign "timestamp" (SNum (Date_now w)) (spread B []))).
    { apply lookup_some_in. rewrite lookup_assign_other by discriminate.
      now rewrite (spread_fresh B Hobj). }
    destruct (stringify_holds _ _ _ Hin) as [front [back Htext]].
    exists (assign "timestamp" (SNum (Date_now w)) (spread B [])),
           (assign "timestamp" (SNum (Date_now w)) (spread (remove "signature" B) [])),
           front, back.
    split; [reflexivity|]. split; [reflexivity|].
    split; [exact (V1_body_eq w (Some B) S)|].
    split; [exact (V1_body_eq w (Some (remove "signature" B)) S)|].
    split; [exact Hin|].
    split; [exact Htext|].
    split; [rewrite lookup_assign_other by discriminate;
            now rewrite (spread_fresh _ Hobj')|].
    split; [rewrite V1_body_eq; apply lookup_assign_same|].
    exact (stringify_length_differs _ _ Hlen1).
  - assert (Hin : In ("signature", stale)
                     (assign "recvWindow" (SNum V2.recvWindow)
                        (assign "timestamp" (SNum (Date_now w)) (spread B [])))).
    { apply lookup_some_in. rewrite !lookup_assign_other by discriminate.
      now rewrite (spread_fresh B Hobj). }
    destruct (stringify_holds _ _ _ Hin) as [front [back Htext]].
    exists (assign "recvWindow" (SNum V2.recvWindow)
              (assign "timestamp" (SNum (Date_now w)) (spread B []))),
           (assign "recvWindow" (SNum V2.recvWindow)
              (assign "timestamp" (SNum (Date_now w)) (spread (remove "signature" B) []))),
           front, back.
    split; [reflexivity|]. split; [reflexivity|].
    split; [exact (V2_body_eq w (Some B) S)|].
    split; [exact (V2_body_eq w (Some (remove "signature" B)) S)|].
    split; [exact Hin|].
    split; [exact Htext|].
    split; [rewrite !lookup_assign_other by discriminate;
            now rewrite (spread_fresh _ Hobj')|].
    split; [rewrite V2_body_eq; apply lookup_assign_same|].
    exact (stringify_length_differs _ _ Hlen2).
Qed.

Lemma stale_signature_stays_in_the_signed_text_witness :
  object body_with_stale_signature
  /\ lookup "signature" body_with_stale_signature = Some (SStr "stale")
  /\ keeps_stale_signature V1.signMessage (answering 1500000000000)
                           body_with_stale_signature "sk2" (SStr "stale")
  /\ digest (V1.signMessage (answering 1500000000000) (Some body_with_stale_signature) "sk2")
     = Crypto.createHmac_sha256_hex
         "sk2" "symbol=BTCUSDT&signature=stale&timestamp=1500000000000".
Proof.
  assert (Hobj : object body_with_stale_signature) by literal_object.
  split; [exact Hobj|]. split; [reflexivity|].
  split; [exact (proj1 (stale_signature_stays_in_the_signed_text
                          (answering 1500000000000)
                          body_with_stale_signature "sk2" (SStr "stale") Hobj eq_refl))|].
  vm_compute. reflexivity.
Defined.

(** ** Sequences of calls *)

Lemma privateRequest_wire (this : IRawAgent) (endpoint method : string)
      (params : option IPostBody) (configOverride : option (props value)) (w : World) :
  (exists sent,
      wire (snd (V1.privateRequest this endpoint method params configOverride w))
      = (wire w ++ sent)%list
      /\ length sent = match auth this with Some _ => 1 | None => 0 end)
  /\
  (exists sent,
      wire (snd (V2.privateRequest this endpoint method params configOverride w))
      = (wire w ++ sent)%list
      /\ length sent = match auth this with Some _ => 1 | None => 0 end).
Proof.
  destruct (auth this) as [a|] eqn:Hauth.
  - split; open_private Hauth; reflexivity.
  - split; exists []; unfold V1.privateRequest, V2.privateRequest, V1.isUpgraded, V2.isUpgraded;
      rewrite Hauth; simpl; now rewrite app_nil_r.
Qed.

Lemma publicRequest_wire (this : IRawAgent) (endpoint : string)
      (queryParams : option IPostBody) (configOverride : option (props value)) (w : World) :
  (exists d, wire (snd (V1.publicRequest this endpoint queryParams configOverride w))
             = (wire w ++ [d])%list)
  /\
  (exists d, wire (snd (V2.publicRequest this endpoint queryParams configOverride w))
             = (wire w ++ [d])%list).
Proof.
  split; unfold V1.publicRequest, V2.publicRequest; cbv zeta; eexists; apply wire_after_axios.
Qed.

(** X10: over any sequence of calls the transport is invoked once for
    every public request and once for every private request made while keys
    are held, and never otherwise: a failed request is not sent again, a
    refused one is not sent at all, and what was sent before stays as it
    was. Both versions. *)
Theorem one_transport_call_per_request (cs : list call) (this : IRawAgent) (w : World) :
  (exists sent,
      wire (snd (V1.run cs (this, w))) = (wire w ++ sent)%list
      /\ length sent = transport_calls cs (auth this))
  /\
  (exists sent,
      wire (snd (V2.run cs (this, w))) = (wire w ++ sent)%list
      /\ length sent = transport_calls cs (auth this)).
Proof.
  unfold V1.run, V2.run. split; revert this w;
    (induction cs as [|c cs IH]; intros this w;
     [exists []; split; [now rewrite app_nil_r | reflexivity]|];
     destruct c as [newAuth|endpoint method params ov|endpoint params ov|ms];
     cbn [fold_left V1.step V2.step transport_calls]).
  - destruct (IH (V1.upgrade newAuth this) w) as [sent [Hw Hl]]. now exists sent.
  - destruct (privateRequest_wire this endpoint method params ov w) as [[one [Hone Hn]] _].
    destruct (IH this (snd (V1.privateRequest this endpoint method params ov w)))
      as [sent [Hw Hl]].
    exists (one ++ sent)%list. rewrite Hw, Hone, <- app_assoc, length_app, Hn, Hl.
    split; reflexivity.
  - destruct (publicRequest_wire this endpoint params ov w) as [[d Hd] _].
    destruct (IH this (snd (V1.publicRequest this endpoint params ov w))) as [sent [Hw Hl]].
    exists (d :: sent). rewrite Hw, Hd, <- app_assoc. cbn [length app]. now rewrite Hl.
  - destruct (IH this (elapse ms w)) as [sent [Hw Hl]]. now exists sent.
  - destruct (IH (V2.upgrade newAuth this) w) as [sent [Hw Hl]]. now exists sent.
  - destruct (privateRequest_wire this endpoint method params ov w) as [_ [one [Hone Hn]]].
    destruct (IH this (snd (V2.privateRequest this endpoint method params ov w)))
      as [sent [Hw Hl]].
    exists (one ++ sent)%list. rewrite Hw, Hone, <- app_assoc, length_app, Hn, Hl.
    split; reflexivity.
  - destruct (publicRequest_wire this endpoint params ov w) as [_ [d Hd]].
    destruct (IH this (snd (V2.publicRequest this endpoint params ov w))) as [sent [Hw Hl]].
    exists (d :: sent). rewrite Hw, Hd, <- app_assoc. cbn [length app]. now rewrite Hl.
  - destruct (IH this (elapse ms w)) as [sent [Hw Hl]]. now exists sent.
Qed.

(** * Properties of the client *)

(** Unfolds a client method down to the request of the raw agent it makes. *)
Ltac open_client :=
  unfold Client.send, Client.ping, Client.getServerTime, Client.getOrderBook,
    Client.getAggregateTradesList, Client.getCandles, Client.get24HourStats,
    Client.getPrices, Client.getTickerTape, Client.placeNewOrder,
    Client.placeNewTestOrder, Client.getOrder, Client.cancelOrder, Client.getOpenOrders,
    Client.getAllOrders, Client.getAccountInformation, Client.getAccountTradeList,
    Client.requestCryptoWithdrawal, Client.getDepositHistory,
    Client.getWithdrawalHistory, Client.getDepositAddress;
  cbn [RawAgent.publicRequest RawAgent.privateRequest RawAgent.getRawAgent
       RawAgent.isUpgraded RawAgent.upgrade RawAgent.first RawAgent.later
       Client.rawAgent Client.configOverride Client.getClient Client.upgrade].

(** X11: a client made without keys. Each of its twelve accounts-and-trading
    methods rejects with the keys-required message and leaves the world as it
    was; each of its eight market-data methods hands the transport exactly one
    descriptor, which, when the client's override leaves [method], [url],
    [data] and [headers] alone, is a [GET] under [/api/v1/] with no [data] and
    no [X-MBX-APIKEY]. Both versions. *)
Theorem client_without_keys
        (r : Client.request) (configOverride : option (props value)) (w : World) :
  Forall (fun M =>
    if Client.accounts_and_trading r
    then Client.send M r (Client.getClient M None configOverride) w
         = (Rejected (Raised keys_required), w)
    else exists d,
        wire (snd (Client.send M r (Client.getClient M None configOverride) w))
        = (wire w ++ [d])%list
        /\ (sets_none_of ["method"; "url"; "data"; "headers"] configOverride ->
            lookup "method" d = Some (Str "GET")
            /\ lookup "data" d = None
            /\ header "X-MBX-APIKEY" d = None
            /\ exists rest, lookup "url" d = Some (Str ("/api/v1/" ++ rest))))
    RawAgent.versions.
Proof.
  repeat constructor; destruct r; cbn [Client.accounts_and_trading]; open_client;
    try reflexivity;
    (open_public; intros Hov;
     assert (Hm : lookup "method" (own configOverride) = None) by (apply Hov; simpl; tauto);
     assert (Hu : lookup "url" (own configOverride) = None) by (apply Hov; simpl; tauto);
     assert (Hd : lookup "data" (own configOverride) = None) by (apply Hov; simpl; tauto);
     assert (Hh : lookup "headers" (own configOverride) = None) by (apply Hov; simpl; tauto);
     unfold header, field;
     rewrite !lookup_layered by (assumption || reflexivity);
     repeat split; eexists; reflexivity).
Qed.

Lemma client_without_keys_witness :
  sets_none_of ["method"; "url"; "data"; "headers"] (Some testnet_override)
  /\ Client.send RawAgent.later (Client.CancelOrder [("symbol", SStr "BTCUSDT")])
       (Client.getClient RawAgent.later None (Some testnet_override)) (answering 0)
     = (Rejected (Raised keys_required), answering 0)
  /\ exists d,
      wire (snd (Client.send RawAgent.later Client.GetPrices
                   (Client.getClient RawAgent.later None (Some testnet_override))
                   (answering 0))) = [d]
      /\ lookup "method" d = Some (Str "GET")
      /\ header "X-MBX-APIKEY" d = None.
Proof.
  assert (Hov : sets_none_of ["method"; "url"; "data"; "headers"] (Some testnet_override)).
  { intros k [<-|[<-|[<-|[<-|[]]]]]; reflexivity. }
  split; [exact Hov|]. split.
  - pose proof (client_without_keys (Client.CancelOrder [("symbol", SStr "BTCUSDT")])
                  (Some testnet_override) (answering 0)) as H.
    apply Forall_inv_tail, Forall_inv in H. exact H.
  - pose proof (client_without_keys Client.GetPrices (Some testnet_override) (answering 0))
      as H.
    apply Forall_inv_tail, Forall_inv in H. destruct H as [d [Hwire Hd]].
    destruct (Hd Hov) as [Hmethod [_ [Hkey _]]].
    exists d. split; [exact Hwire|]. split; [exact Hmethod | exact Hkey].
Defined.

(** ** Symbols on the wire *)

Lemma percent_digits (c : ascii) :
  exists h1 h2,
    QS.percent c = String "%" (String h1 (String h2 EmptyString))
    /\ QS.unreserved h1 = true /\ QS.unreserved h2 = true.
Proof. destruct c as [[] [] [] [] [] [] [] []]; do 2 eexists; repeat split. Qed.

Lemma eqb_unreserved (c c' : ascii) :
  QS.unreserved c = false -> QS.unreserved c' = true -> Ascii.eqb c c' = false.
Proof.
  intros Hc Hc'. destruct (Ascii.eqb_spec c c') as [->|]; [congruence | reflexivity].
Qed.

(** The encoder emits unreserved characters and ['%'], nothing else. *)
Lemma count_encode (c : ascii) (s : string) :
  QS.unreserved c = false -> Ascii.eqb c "%" = false -> count c (QS.encode s) = 0.
Proof.
  intros Hc Hp. induction s as [|c' s IH]; [reflexivity|].
  cbn [QS.encode]. destruct (QS.unreserved c') eqn:Hc'.
  - cbn [count]. now rewrite (eqb_unreserved c c' Hc Hc'), IH.
  - destruct (percent_digits c') as [h1 [h2 [-> [H1 H2]]]].
    cbn [String.append count].
    now rewrite Hp, (eqb_unreserved c h1 Hc H1), (eqb_unreserved c h2 Hc H2), IH.
Qed.

(** One ['&'] between two pairs, none inside a pair. *)
Lemma count_amp_stringify (o : IPostBody) :
  count "&" (QS.stringify (Some o)) = pred (length o).
Proof.
  unfold QS.stringify. cbn [own].
  assert (Hpair : forall kv, count "&" (QS.pair kv) = 0).
  { intros kv. unfold QS.pair. rewrite !count_app, !count_encode by reflexivity.
    reflexivity. }
  induction o as [|kv rest IH]; [reflexivity|].
  cbn [map String.concat length]. destruct rest as [|kv' rest'].
  - cbn [map length pred]. apply Hpair.
  - cbn [map] in *. rewrite !count_app, Hpair. cbn [count Ascii.eqb Bool.eqb].
    rewrite IH. reflexivity.
Qed.

Lemma count_question_stringify (o : option IPostBody) : count "?" (QS.stringify o) = 0.
Proof.
  unfold QS.stringify.
  assert (Hpair : forall kv, count "?" (QS.pair kv) = 0).
  { intros kv. unfold QS.pair. rewrite !count_app, !count_encode by reflexivity.
    reflexivity. }
  induction (own o) as [|kv rest IH]; [reflexivity|].
  cbn [map String.concat]. destruct rest as [|kv' rest'].
  - apply Hpair.
  - cbn [map] in *. rewrite !count_app, Hpair. cbn [count Ascii.eqb Bool.eqb].
    rewrite IH. reflexivity.
Qed.


Lemma query_of_url (path : string) (o : IPostBody) :
  count "?" path = 0 -> count "=" path = 0 -> count "&" path = 0 ->
  query_of (length o) ("/" ++ path ++ "?" ++ QS.stringify (Some o)).
Proof.
  intros Hq He Ha. unfold query_of.
  change ("/" ++ path ++ "?" ++ QS.stringify (Some o))
    with (String "/" (path ++ String "?" (QS.stringify (Some o)))).
  cbn [count Ascii.eqb Bool.eqb]. rewrite !count_app. cbn [count Ascii.eqb Bool.eqb].
  rewrite Hq, He, Ha, count_question_stringify, count_eq_stringify, count_amp_stringify.
  repeat split.
Qed.

(** X12: a symbol given by name cannot add parameters to a request. Whatever
    string is passed, [get24HourStats] sends the path followed by [symbol=]
    and the percent-encoded string, a query with one ['?'], one ['='] and no
    ['&']; on a keyed client, [getOpenOrders] and [getDepositAddress] send a
    query of exactly three pairs in the first version (the symbol, the
    timestamp, the signature) and four in the later one. This is for a client
    whose override leaves [url] alone. *)
Theorem symbol_adds_no_parameter
        (symbolId : string) (this : Client.IBinanceClient) (a : IApiAuth) (w : World) :
  auth (Client.rawAgent this) = Some a ->
  sets_none_of ["url"] (Client.configOverride this) ->
  Forall (fun M =>
    exists d,
      wire (snd (Client.get24HourStats M this symbolId w)) = (wire w ++ [d])%list
      /\ lookup "url" d = Some (Str ("/api/v1/ticker/24hr?symbol=" ++ QS.encode symbolId))
      /\ query_of 1 ("/api/v1/ticker/24hr?symbol=" ++ QS.encode symbolId))
    RawAgent.versions
  /\
  (exists d url,
      wire (snd (Client.getOpenOrders RawAgent.first this symbolId w)) = (wire w ++ [d])%list
      /\ lookup "url" d = Some (Str url) /\ query_of 3 url)
  /\
  (exists d url,
      wire (snd (Client.getDepositAddress RawAgent.first this symbolId w))
      = (wire w ++ [d])%list
      /\ lookup "url" d = Some (Str url) /\ query_of 3 url)
  /\
  (exists d url,
      wire (snd (Client.getOpenOrders RawAgent.later this symbolId w)) = (wire w ++ [d])%list
      /\ lookup "url" d = Some (Str url) /\ query_of 4 url)
  /\
  (exists d url,
      wire (snd (Client.getDepositAddress RawAgent.later this symbolId w))
      = (wire w ++ [d])%list
      /\ lookup "url" d = Some (Str url) /\ query_of 4 url).
Proof.
  intros Hauth Hov.
  assert (Hu : lookup "url" (own (Client.configOverride this)) = None)
    by (apply Hov; simpl; tauto).
  split; [|repeat split].
  - repeat constructor; open_client; open_public;
      rewrite lookup_layered by (exact Hu || reflexivity);
      (split; [reflexivity|]);
      apply (query_of_url "api/v1/ticker/24hr" [("symbol", SStr symbolId)]); reflexivity.
  - open_client. unfold V1.privateRequest, V1.isUpgraded. rewrite Hauth.
    cbn [truthy value_of_auth negb]. cbv zeta. eexists. eexists.
    split; [apply wire_after_axios|].
    rewrite lookup_layered by (exact Hu || reflexivity).
    split; [reflexivity|]. cbn [String.eqb Ascii.eqb Bool.eqb]. rewrite V1_body_eq.
    apply (query_of_url "api/v3/openOrders"
             [("symbol", SStr symbolId); ("timestamp", _); ("signature", _)]); reflexivity.
  - open_client. unfold V1.privateRequest, V1.isUpgraded. rewrite Hauth.
    cbn [truthy value_of_auth negb]. cbv zeta. eexists. eexists.
    split; [apply wire_after_axios|].
    rewrite lookup_layered by (exact Hu || reflexivity).
    split; [reflexivity|]. cbn [String.eqb Ascii.eqb Bool.eqb]. rewrite V1_body_eq.
    apply (query_of_url "wapi/v3/depositAddress.html"
             [("asset", SStr symbolId); ("timestamp", _); ("signature", _)]); reflexivity.
  - open_client. unfold V2.privateRequest, V2.isUpgraded. rewrite Hauth.
    cbn [truthy value_of_auth negb]. cbv zeta. eexists. eexists.
    split; [apply wire_after_axios|].
    rewrite lookup_layered by (exact Hu || reflexivity).
    split; [reflexivity|]. rewrite V2_body_eq.
    apply (query_of_url "api/v3/openOrders"
             [("symbol", SStr symbolId); ("timestamp", _); ("recvWindow", _);
              ("signature", _)]); reflexivity.
  - open_client. unfold V2.privateRequest, V2.isUpgraded. rewrite Hauth.
    cbn [truthy value_of_auth negb]. cbv zeta. eexists. eexists.
    split; [apply wire_after_axios|].
    rewrite lookup_layered by (exact Hu || reflexivity).
    split; [reflexivity|]. rewrite V2_body_eq.
    apply (query_of_url "wapi/v3/depositAddress.html"
             [("asset", SStr symbolId); ("timestamp", _); ("recvWindow", _);
              ("signature", _)]); reflexivity.
Qed.

Lemma symbol_adds_no_parameter_witness :
  auth (Client.rawAgent (Client.getClient RawAgent.later (Some pk2sk2) None)) = Some pk2sk2
  /\ sets_none_of ["url"] (Client.configOverride
                             (Client.getClient RawAgent.later (Some pk2sk2) None))
  /\ exists d,
      wire (snd (Client.get24HourStats RawAgent.first
                   (Client.getClient RawAgent.later (Some pk2sk2) None)
                   "BTC&limit=1" (answering 0))) = [d]
      /\ lookup "url" d = Some (Str "/api/v1/ticker/24hr?symbol=BTC%26limit%3D1").
Proof.
  assert (Hov : sets_none_of ["url"] (Client.configOverride
                                        (Client.getClient RawAgent.later (Some pk2sk2) None))).
  { intros k _. reflexivity. }
  split; [reflexivity|]. split; [exact Hov|].
  destruct (symbol_adds_no_parameter "BTC&limit=1"
              (Client.getClient RawAgent.later (Some pk2sk2) None) pk2sk2 (answering 0)
              eq_refl Hov) as [H _].
  apply Forall_inv in H. destruct H as [d [Hwire [Hurl _]]].
  exists d. split; [exact Hwire | exact Hurl].
Defined.

(** ** The client's keys and the client's override *)

(** X13: [upgrade] on a client reaches its raw agent. After it, whatever
    the client held before, [isUpgraded()] is truthy and each of the twelve
    accounts-and-trading methods hands the transport exactly one descriptor,
    which has the new public key as [X-MBX-APIKEY] when the client's override
    sets no [headers], and carries a body signed under the new private key,
    in the query string or as [data], when the override sets neither [url]
    nor [data]. Both versions. *)
Theorem client_upgrade_authenticates
        (r : Client.request) (newAuth : IApiAuth) (this : Client.IBinanceClient)
        (w : World) :
  Client.accounts_and_trading r = true ->
  Forall (fun M =>
    truthy (Client.isUpgraded M (Client.upgrade M newAuth this)) = true
    /\ exists d,
        wire (snd (Client.send M r (Client.upgrade M newAuth this) w)) = (wire w ++ [d])%list
        /\ (sets_none_of ["headers"] (Client.configOverride this) ->
            header "X-MBX-APIKEY" d = Some (Str (publicKey newAuth)))
        /\ (sets_none_of ["url"; "data"] (Client.configOverride this) ->
            (exists endpoint params,
                in_query endpoint
                         (body (RawAgent.signMessage M w params (privateKey newAuth))) d)
            \/ (exists params,
                   in_body (body (RawAgent.signMessage M w params (privateKey newAuth))) d)))
    RawAgent.versions.
Proof.
  intros Hr.
  assert (Hauth1 : auth (V1.upgrade newAuth (Client.rawAgent this)) = Some newAuth)
    by reflexivity.
  assert (Hauth2 : auth (V2.upgrade newAuth (Client.rawAgent this)) = Some newAuth)
    by reflexivity.
  repeat constructor; try reflexivity;
    destruct r; try discriminate Hr; open_client;
    first [open_private Hauth1 | open_private Hauth2];
    (split;
     [ intros Hov;
       assert (Hh : lookup "headers" (own (Client.configOverride this)) = None)
         by (apply Hov; simpl; tauto);
       rewrite field_config_absent by (exact Hh || reflexivity);
       unfold header, field; rewrite !lookup_layered by (exact Hh || reflexivity);
       reflexivity
     | intros Hov;
       assert (Hu : lookup "url" (own (Client.configOverride this)) = None)
         by (apply Hov; simpl; tauto);
       assert (Hd : lookup "data" (own (Client.configOverride this)) = None)
         by (apply Hov; simpl; tauto);
       unfold in_query, in_body; cbn [RawAgent.signMessage RawAgent.first RawAgent.later];
       rewrite !lookup_layered by (assumption || reflexivity);
       first [ left; do 2 eexists; reflexivity | right; eexists; reflexivity ] ]).
Qed.

Lemma client_upgrade_authenticates_witness :
  Client.accounts_and_trading (Client.PlaceNewOrder [("symbol", SStr "BTCUSDT")]) = true
  /\ sets_none_of ["headers"] None
  /\ exists d,
      wire (snd (Client.send RawAgent.first (Client.PlaceNewOrder [("symbol", SStr "BTCUSDT")])
                   (Client.upgrade RawAgent.first pk2sk2
                      (Client.getClient RawAgent.first None None))
                   (answering 0))) = [d]
      /\ header "X-MBX-APIKEY" d = Some (Str "pk2").
Proof.
  assert (Hov : sets_none_of ["headers"] None) by (intros k _; reflexivity).
  split; [reflexivity|]. split; [exact Hov|].
  pose proof (client_upgrade_authenticates (Client.PlaceNewOrder [("symbol", SStr "BTCUSDT")])
                pk2sk2 (Client.getClient RawAgent.first None None) (answering 0) eq_refl)
    as H.
  apply Forall_inv in H. destruct H as [_ [d [Hwire [Hkey _]]]].
  exists d. split; [exact Hwire | exact (Hkey Hov)].
Defined.

(** X14: the override given to [getClient] goes with every request: each of
    the twenty methods of a keyed client hands the transport exactly one
    descriptor, and that descriptor holds every property of the client's
    override object with the override's value. Both versions. *)
Theorem client_override_reaches_every_request
        (r : Client.request) (a : IApiAuth) (override : props value)
        (k : string) (v : value) (w : World) :
  distinct override ->
  lookup k override = Some v ->
  Forall (fun M =>
    exists d,
      wire (snd (Client.send M r (Client.getClient M (Some a) (Some override)) w))
      = (wire w ++ [d])%list
      /\ lookup k d = Some v)
    RawAgent.versions.
Proof.
  intros Hobj Hk.
  assert (Hauth1 : auth (V1.getRawAgent (Some a)) = Some a) by reflexivity.
  assert (Hauth2 : auth (V2.getRawAgent (Some a)) = Some a) by reflexivity.
  repeat constructor; destruct r; open_client;
    first [open_public | open_private Hauth1 | open_private Hauth2];
    cbn [own]; now apply lookup_overridden.
Qed.

Lemma client_override_reaches_every_request_witness :
  distinct testnet_override
  /\ lookup "timeout" testnet_override = Some (Num 10)
  /\ exists d,
      wire (snd (Client.send RawAgent.later Client.GetAccountInformation
                   (Client.getClient RawAgent.later (Some pk2sk2) (Some testnet_override))
                   (answering 0))) = [d]
      /\ lookup "timeout" d = Some (Num 10).
Proof.
  assert (Hobj : distinct testnet_override).
  { repeat constructor; simpl; intuition discriminate. }
  split; [exact Hobj|]. split; [reflexivity|].
  pose proof (client_override_reaches_every_request Client.GetAccountInformation pk2sk2
                testnet_override "timeout" (Num 10) (answering 0) Hobj eq_refl) as H.
  apply Forall_inv_tail, Forall_inv in H. exact H.
Defined.
